(** * butterfree: the Historical Feature Store writer

    A shallow embedding of
    [butterfree/load/writers/historical_feature_store_writer.py]
    (class [HistoricalFeatureStoreWriter]) and the properties its
    specification states about it.

    The writer is a thin policy layer around three collaborators: Python's
    own values (strings, ints, floats), the Spark dataframe engine, and the
    storage configuration.  Each is modelled below as far as the writer
    touches it; the writer's methods are then transcribed statement by
    statement in a small state-and-exception monad whose state holds the
    writer object and the list of calls made into the collaborators. *)

From Stdlib Require Import ZArith QArith Lia List String Ascii DecimalString.
From Stdlib Require Import Permutation.
From Stdlib Require Import Floats.SpecFloat.
From stdpp Require Import gmap strings list.

Local Open Scope string_scope.
Local Open Scope list_scope.
Local Open Scope Z_scope.

(** ** Python values *)

Module Py.

(** *** Exceptions *)

Inductive Exception : Type :=
| RuntimeError (msg : string)
| AssertionError (msg : string)
| OverflowError (msg : string)
| AnalysisException (msg : string)
| IllegalArgumentException (msg : string).

Definition Result (A : Type) : Type := (Exception + A)%type.

(** *** Strings *)

(** Strings are sequences of characters with code points below 256.

    [str.lower()] on a character: the upper-case letters, [A] to [Z] and the
    accented ones from 192 to 222 (the multiplication sign 215 is not a
    letter), move 32 places up to their lower-case twins; every other
    character stays. *)
Definition lower_ascii (c : ascii) : ascii :=
  let n := N_of_ascii c in
  if ((65 <=? n) && (n <=? 90) || (192 <=? n) && (n <=? 222) && negb (n =? 215))%N
  then ascii_of_N (n + 32) else c.

Fixpoint lower (s : string) : string :=
  match s with
  | EmptyString => EmptyString
  | String c s' => String (lower_ascii c) (lower s')
  end.

(** [needle in hay] *)
Fixpoint contains (needle hay : string) : bool :=
  String.prefix needle hay ||
  match hay with
  | EmptyString => false
  | String _ hay' => contains needle hay'
  end.

(** What "the message carries [v]" means. *)
Definition includes (hay needle : string) : Prop :=
  exists pre post : string, hay = pre +:+ needle +:+ post.

(** [str(n)] for an int, as an f-string prints it. *)
Definition str_of_int (n : Z) : string := NilZero.string_of_int (Z.to_int n).

(** [str(x)] for a value that is a string or [None]. *)
Definition str_of_opt (x : option string) : string :=
  match x with
  | Some s => s
  | None => "None"
  end.

(** A line feed, the [\n] of a string literal. *)
Definition newline : string := String "010"%char EmptyString.

(** [x or y] for a string-or-None and for an int-or-None: [x] when it is
    true, otherwise [y]; [None], the empty string and [0] are false. *)
Definition or_str (x y : option string) : option string :=
  match x with
  | Some EmptyString | None => y
  | Some _ => x
  end.

Definition or_int (x : option Z) (y : Z) : Z :=
  match x with
  | Some 0 | None => y
  | Some n => n
  end.

Definition startswith (s pre : string) : bool := String.prefix pre s.

Fixpoint endswith_char (s : string) (c : ascii) : bool :=
  match s with
  | EmptyString => false
  | String a EmptyString => Ascii.eqb a c
  | String _ s' => endswith_char s' c
  end.

(** [os.path.join(a, *p)] on a POSIX system, that is [posixpath.join]:
<<
    path = a
    for b in p:
        if b.startswith(sep):                path = b
        elif not path or path.endswith(sep): path += b
        else:                                path += sep + b
>> *)
Definition path_join_step (path b : string) : string :=
  if startswith b "/" then b
  else if (String.eqb path "" || endswith_char path "/"%char)%bool then path +:+ b
  else path +:+ "/" +:+ b.

Definition os_path_join (a : string) (p : list string) : string :=
  fold_left path_join_step p a.

(** *** Numbers

    A Python [float] is an IEEE 754 binary64 number; the arithmetic is the
    Standard Library's executable specification of it at precision 53 and
    maximal exponent 1024, rounding to nearest, ties to even.  A Python
    [int] is unbounded. *)

Definition prec : Z := 53.
Definition emax : Z := 1024.

Definition float_add : spec_float -> spec_float -> spec_float := SFadd prec emax.
Definition float_sub : spec_float -> spec_float -> spec_float := SFsub prec emax.
Definition float_mul : spec_float -> spec_float -> spec_float := SFmul prec emax.
Definition float_div : spec_float -> spec_float -> spec_float := SFdiv prec emax.

(** The float [1.0]. *)
Definition float_one : spec_float := S754_finite false 4503599627370496 (-52).

(** [float(n)]: the nearest binary64 number; Python refuses an int that
    rounds beyond the largest finite one. *)
Definition float_of_int (n : Z) : Result spec_float :=
  match binary_normalize prec emax n 0 false with
  | S754_infinity _ => inl (OverflowError "int too large to convert to float")
  | f => inr f
  end.

(** Comparing a float with an int is exact in Python: neither operand is
    rounded.  The result is the place of the float relative to the int, or
    [None] for a NaN. *)
Definition float_cmp_int (f : spec_float) (n : Z) : option comparison :=
  match f with
  | S754_nan => None
  | S754_infinity s => Some (if s then Lt else Gt)
  | S754_zero _ => Some (0 ?= n)
  | S754_finite s m e =>
      let sm := cond_Zopp s (Zpos m) in
      Some (if 0 <=? e then sm * 2 ^ e ?= n else sm ?= n * 2 ^ (- e))
  end.

Inductive Num : Type :=
| Int (n : Z)
| Float (f : spec_float).

Definition to_float (x : Num) : Result spec_float :=
  match x with
  | Int n => float_of_int n
  | Float f => inr f
  end.

(** A binary operator on two numbers: on ints when both are ints, otherwise
    on floats after converting the int operand. *)
Definition binop (op_int : Z -> Z -> Z) (op_float : spec_float -> spec_float -> spec_float)
    (x y : Num) : Result Num :=
  match x, y with
  | Int a, Int b => inr (Int (op_int a b))
  | _, _ =>
      match to_float x, to_float y with
      | inr a, inr b => inr (Float (op_float a b))
      | inl e, _ => inl e
      | _, inl e => inl e
      end
  end.

Definition add : Num -> Num -> Result Num := binop Z.add float_add.
Definition sub : Num -> Num -> Result Num := binop Z.sub float_sub.
Definition mul : Num -> Num -> Result Num := binop Z.mul float_mul.

(** [x <= y] *)
Definition le (x y : Num) : bool :=
  match x, y with
  | Int a, Int b => a <=? b
  | Float a, Float b => SFleb a b
  | Float a, Int b =>
      match float_cmp_int a b with
      | Some Lt | Some Eq => true
      | _ => false
      end
  | Int a, Float b =>
      match float_cmp_int b a with
      | Some Gt | Some Eq => true
      | _ => false
      end
  end.



End Py.

(** ** The dataframe engine

    What the writer uses of Spark: dataframes with named, typed columns whose
    rows are spread over physical partitions; [withColumn], column lookup,
    [repartition] and [count]; the session's configuration; and the two
    readers of the client. *)

Inductive DataType : Type :=
| BooleanType | IntegerType | LongType | DoubleType | StringType
| DateType | TimestampType.

Inductive Value : Type :=
| Null
| BooleanV (b : bool)
| IntV (n : Z)
| DoubleV (f : spec_float)
| StringV (s : string)
| TimestampV (micros : Z).

Definition Row : Type := list Value.

Record StructField : Type := {
  field_name : string;
  dataType : DataType;
}.

(** A dataframe: its schema, its rows by physical partition, and whether
    the session that analyses it compares column names with their case
    ([spark.sql.caseSensitive]; Spark's default is not to). *)
Record DataFrame : Type := {
  schema : list StructField;
  partitions : list (list Row);
  caseSensitive : bool;
}.

Definition rows (df : DataFrame) : list Row := concat (partitions df).

(** [df.count()] *)
Definition count (df : DataFrame) : Z := Z.of_nat (length (rows df)).

(** The analyzer's resolver: do two column names denote the same column? *)
Definition resolver (cs : bool) (a b : string) : bool :=
  if cs then String.eqb a b else String.eqb (Py.lower a) (Py.lower b).

(** The positions of the columns a name resolves to. *)
Fixpoint positions_from (cs : bool) (colName : string) (fields : list StructField)
    (i : nat) : list nat :=
  match fields with
  | [] => []
  | f :: fields' =>
      (if resolver cs (field_name f) colName then [i] else [])
        ++ positions_from cs colName fields' (S i)
  end.

Definition positions (df : DataFrame) (colName : string) : list nat :=
  positions_from (caseSensitive df) colName (schema df) 0.

(** A column expression: the type of its values, how it reads a row, and
    the data type mismatch the analyzer finds in it, if any.  Building an
    expression never fails; the mismatch is reported when the expression is
    bound to a dataframe. *)
Record Column : Type := {
  col_type : DataType;
  col_eval : Row -> Value;
  col_mismatch : option string;
}.

(** [df[colName]]: the column of that name; the analysis fails when no
    column or more than one column answers to it. *)
Definition getitem (df : DataFrame) (colName : string) : Py.Result Column :=
  match positions df colName with
  | [i] =>
      inr {| col_type := nth i (map dataType (schema df)) StringType;
             col_eval := fun r => nth i r Null;
             col_mismatch := None |}
  | [] => inl (Py.AnalysisException ("cannot resolve column " +:+ colName))
  | _ => inl (Py.AnalysisException ("ambiguous reference to column " +:+ colName))
  end.

(** [df.withColumn(colName, col)].  The analyzer first resolves [col]
    against the dataframe and raises when the expression does not type.
    Otherwise every column that answers to [colName] is replaced, where it
    stands, by [col] under the name [colName]; when there is none, [col] is
    added as the last column. *)
Definition put_column {A : Type} (hits : list nat) (x : A) (l : list A) : list A :=
  match hits with
  | [] => l ++ [x]
  | _ => imap (fun i a => if bool_decide (i ∈ hits) then x else a) l
  end.

Definition withColumn_resolved (df : DataFrame) (colName : string) (col : Column)
    : DataFrame :=
  let hits := positions df colName in
  {| schema :=
       put_column hits {| field_name := colName; dataType := col_type col |} (schema df);
     partitions := map (map (fun r => put_column hits (col_eval col r) r)) (partitions df);
     caseSensitive := caseSensitive df |}.

Definition withColumn (df : DataFrame) (colName : string) (col : Column)
    : Py.Result DataFrame :=
  match col_mismatch col with
  | Some complaint => inl (Py.AnalysisException complaint)
  | None => inr (withColumn_resolved df colName col)
  end.

(** The session configuration and the readers of the Spark client. *)
Record SparkClient : Type := {
  conf : string -> string;
  read : string -> gmap string string -> Py.Result DataFrame;
  read_table : string -> Py.Result DataFrame;
}.

(** ** The storage configuration *)

Record DbConfig : Type := {
  format_ : string;
  get_options : string -> gmap string string;
}.

(** ** Feature sets and hooks *)

Record FeatureSet : Type := {
  name : string;
  entity : string;
}.

Inductive Hook : Type :=
| SparkTableSchemaCompatibilityHook
    (spark_client : SparkClient) (table : string) (database : option string)
| SuppliedHook (label : string).

(** The table a schema-compatibility hook compares the dataframe with. *)
Definition hook_table (h : Hook) : option (option string * string) :=
  match h with
  | SparkTableSchemaCompatibilityHook _ table database => Some (database, table)
  | SuppliedHook _ => None
  end.

(** ** The writer *)

Section Methods.

Set Default Proof Using "Type".

(** What the module imports and this file does not define. *)

(** [pyspark.sql.functions.year], [month] and [dayofmonth] on one value: the
    calendar field of an event time in the session's time zone. *)
Variables year_of month_of dayofmonth_of : Value -> Value.

(** The hash Spark's partitioner takes of the key columns of a row. *)
Variable partition_hash : list Value -> Z.

(** [butterfree.constants.columns] *)
Variables TIMESTAMP_COLUMN PARTITION_YEAR PARTITION_MONTH PARTITION_DAY : string.

(** [butterfree.constants.spark_constants.DEFAULT_NUM_PARTITIONS] *)
Variable DEFAULT_NUM_PARTITIONS : Z.

(** [butterfree.configs.environment.get_variable] *)
Variable environment_get_variable : string -> option string.

(** [S3Config()], the storage configuration built with its defaults. *)
Variable S3Config : DbConfig.

(** The three take a date; the analyzer casts a timestamp or a string to
    one, and finds a mismatch in a column of any other type. *)
Definition date_like (t : DataType) : bool :=
  match t with
  | DateType | TimestampType | StringType => true
  | _ => false
  end.

Definition date_mismatch (function : string) (c : Column) : option string :=
  match col_mismatch c with
  | Some complaint => Some complaint
  | None =>
      if date_like (col_type c) then None
      else Some ("cannot resolve '" +:+ function
                 +:+ "' due to data type mismatch: argument 1 requires date type")
  end.

Definition year (c : Column) : Column :=
  {| col_type := IntegerType;
     col_eval := fun r => year_of (col_eval c r);
     col_mismatch := date_mismatch "year" c |}.

Definition month (c : Column) : Column :=
  {| col_type := IntegerType;
     col_eval := fun r => month_of (col_eval c r);
     col_mismatch := date_mismatch "month" c |}.

Definition dayofmonth (c : Column) : Column :=
  {| col_type := IntegerType;
     col_eval := fun r => dayofmonth_of (col_eval c r);
     col_mismatch := date_mismatch "dayofmonth" c |}.

(** The key columns of a repartition, resolved by name. *)
Fixpoint key_columns (df : DataFrame) (cols : list string) : Py.Result (list Column) :=
  match cols with
  | [] => inr []
  | c :: cols' =>
      match getitem df c, key_columns df cols' with
      | inr k, inr ks => inr (k :: ks)
      | inl e, _ => inl e
      | _, inl e => inl e
      end
  end.

(** The partition a row goes to. *)
Definition bucket (numPartitions : Z) (keys : list Column) (r : Row) : Z :=
  partition_hash (map (fun k => col_eval k r) keys) mod numPartitions.

(** [df.repartition(numPartitions, *cols)]: the same rows, dealt into
    [numPartitions] partitions by the hash of their key columns. *)
Definition repartition (df : DataFrame) (numPartitions : Z) (cols : list string)
    : Py.Result DataFrame :=
  if numPartitions <=? 0 then
    inl (Py.IllegalArgumentException "Number of partitions must be positive")
  else
    match key_columns df cols with
    | inl e => inl e
    | inr keys =>
        inr {| schema := schema df;
               partitions :=
                 map (fun i => List.filter (fun r => bucket numPartitions keys r =? Z.of_nat i)
                                      (rows df))
                     (seq 0 (Z.to_nat numPartitions));
               caseSensitive := caseSensitive df |}
    end.

(** Modelled from the spec: [butterfree.dataframe_service.repartition_df] is
    not part of this file.  The specification describes it as the step that
    redistributes the physical dataframe into a target number of partitions,
    keyed by the partition columns, preserving the rows. *)
Definition repartition_df (dataframe : DataFrame) (partition_by : list string)
    (num_partitions : Z) : Py.Result DataFrame :=
  repartition dataframe num_partitions partition_by.

(** *** The writer object *)

Record HistoricalFeatureStoreWriter : Type := {
  debug_mode : bool;
  pre_hooks : list Hook;
  db_config : DbConfig;
  check_schema : option Hook;
  database : option string;
  num_partitions : Z;
  validation_threshold : Py.Num;
}.

Definition set_check_schema (h : option Hook) (w : HistoricalFeatureStoreWriter)
    : HistoricalFeatureStoreWriter :=
  {| debug_mode := debug_mode w; pre_hooks := pre_hooks w; db_config := db_config w;
     check_schema := h; database := database w; num_partitions := num_partitions w;
     validation_threshold := validation_threshold w |}.

Definition set_pre_hooks (hs : list Hook) (w : HistoricalFeatureStoreWriter)
    : HistoricalFeatureStoreWriter :=
  {| debug_mode := debug_mode w; pre_hooks := hs; db_config := db_config w;
     check_schema := check_schema w; database := database w;
     num_partitions := num_partitions w;
     validation_threshold := validation_threshold w |}.

Definition PARTITION_BY : list string :=
  [PARTITION_YEAR; PARTITION_MONTH; PARTITION_DAY].

(** The literal [0.01]: the binary64 number nearest to one hundredth. *)
Definition DEFAULT_VALIDATION_THRESHOLD : Py.Num :=
  Py.Float (S754_finite false 5764607523034235 (-59)).

(** *** Calls into the collaborators, and the monad of the methods *)

Inductive Call : Type :=
| NewSchemaHook (table : string) (database : option string)
| ConfGet (key : string)
| GetOptions (key : string)
| Read (format : string) (options : gmap string string)
| ReadTable (table : string).

Record State : Type := {
  self : HistoricalFeatureStoreWriter;
  calls : list Call;
}.

Definition M (A : Type) : Type := State -> Py.Result A * State.

Definition ret {A : Type} (a : A) : M A := fun s => (inr a, s).

Definition raise {A : Type} (e : Py.Exception) : M A := fun s => (inl e, s).

Definition bind {A B : Type} (m : M A) (k : A -> M B) : M B :=
  fun s =>
    match m s with
    | (inr a, s') => k a s'
    | (inl e, s') => (inl e, s')
    end.

Definition lift {A : Type} (r : Py.Result A) : M A := fun s => (r, s).

Definition get_self : M HistoricalFeatureStoreWriter := fun s => (inr (self s), s).

Definition update_self (f : HistoricalFeatureStoreWriter -> HistoricalFeatureStoreWriter)
    : M unit :=
  fun s => (inr tt, {| self := f (self s); calls := calls s |}).

Definition call (c : Call) : M unit :=
  fun s => (inr tt, {| self := self s; calls := calls s ++ [c] |}).

Notation "x <- m ;; k" := (bind m (fun x => k))
  (at level 100, m at next level, right associativity).
Notation "m ;;; k" := (bind m (fun _ : unit => k))
  (at level 100, right associativity).

(** *** [__init__] *)

(** Modelled from the spec: the [Writer] base class is not part of this
    file.  Of its constructor, [super().__init__(debug_mode)], the
    specification keeps that it records the debug flag and that no pre-write
    hook is registered yet. *)
Definition Writer__init__ (debug_mode : bool) : bool * list Hook := (debug_mode, []).

Definition __init__ (db_config : option DbConfig) (database : option string)
    (num_partitions : option Z) (validation_threshold : Py.Num)
    (debug_mode : bool) (check_schema : option Hook) : HistoricalFeatureStoreWriter :=
  let base := Writer__init__ debug_mode in
  {| debug_mode := fst base;
     pre_hooks := snd base;
     db_config := match db_config with Some c => c | None => S3Config end;
     check_schema := check_schema;
     database :=
       Py.or_str database (environment_get_variable "FEATURE_STORE_HISTORICAL_DATABASE");
     num_partitions := Py.or_int num_partitions DEFAULT_NUM_PARTITIONS;
     validation_threshold := validation_threshold |}.

(** Modelled from the spec: [add_pre_hook] belongs to the [Writer] base
    class, which is not part of this file; the specification says the hook is
    registered to run before the actual write executes. *)
Definition add_pre_hook (h : Hook) : M unit :=
  update_self (fun w => set_pre_hooks (pre_hooks w ++ [h]) w).

(** *** [_create_partitions] *)
Definition _create_partitions (self : HistoricalFeatureStoreWriter) (dataframe : DataFrame)
    : Py.Result DataFrame :=
  (* create year partition column *)
  match getitem dataframe TIMESTAMP_COLUMN with
  | inl e => inl e
  | inr ts =>
  match withColumn dataframe PARTITION_YEAR (year ts) with
  | inl e => inl e
  | inr dataframe =>
  (* create month partition column *)
  match getitem dataframe TIMESTAMP_COLUMN with
  | inl e => inl e
  | inr ts =>
  match withColumn dataframe PARTITION_MONTH (month ts) with
  | inl e => inl e
  | inr dataframe =>
  (* create day partition column *)
  match getitem dataframe TIMESTAMP_COLUMN with
  | inl e => inl e
  | inr ts =>
  match withColumn dataframe PARTITION_DAY (dayofmonth ts) with
  | inl e => inl e
  | inr dataframe =>
  repartition_df dataframe PARTITION_BY (num_partitions self)
  end end end end end end.

(** *** [load] *)

(** The tuple [load] returns, component by component. *)
Record WritePlan : Type := {
  load_df : DataFrame;
  plan_db_config : DbConfig;
  options : gmap string (option string);
  plan_database : option string;
  table_name : string;
  partition_by : list string;
}.

Definition overwrite_mode_message (partition_overwrite_mode : string) : string :=
  "m=load_incremental, spark.sql.sources.partitionOverwriteMode="
    +:+ partition_overwrite_mode
    +:+ ", msg=partitionOverwriteMode have to be configured to 'dynamic'".

(** [hook] below is [self.check_schema] as it stands after the first [if]:
    the hook the writer already had, or the one just made and stored. *)
Definition load (feature_set : FeatureSet) (dataframe : DataFrame)
    (spark_client : SparkClient) : M WritePlan :=
  self <- get_self ;;
  hook <- match check_schema self with
          | Some h => ret h
          | None =>
              let h := SparkTableSchemaCompatibilityHook
                         spark_client (name feature_set) (database self) in
              call (NewSchemaHook (name feature_set) (database self)) ;;;
              update_self (set_check_schema (Some h)) ;;;
              ret h
          end ;;
  add_pre_hook hook ;;;
  self <- get_self ;;
  dataframe <- lift (_create_partitions self dataframe) ;;
  (if negb (debug_mode self) then
     call (ConfGet "spark.sql.sources.partitionOverwriteMode") ;;;
     let partition_overwrite_mode :=
       Py.lower (conf spark_client "spark.sql.sources.partitionOverwriteMode") in
     if negb (String.eqb partition_overwrite_mode "dynamic") then
       raise (Py.RuntimeError (overwrite_mode_message partition_overwrite_mode))
     else ret tt
   else ret tt) ;;;
  let s3_key := Py.os_path_join "historical" [entity feature_set; name feature_set] in
  call (GetOptions s3_key) ;;;
  let options : gmap string (option string) :=
    {[ "path" := get_options (db_config self) s3_key !! "path" ]} in
  ret {| load_df := dataframe;
         plan_db_config := db_config self;
         options := options;
         plan_database := database self;
         table_name := name feature_set;
         partition_by := PARTITION_BY |}.

(** *** [_assert_validation_count]

    The [assert] statement is modelled as Python runs it by default, with
    assertions enabled. *)

Definition validation_message (table_name : string) (written_count dataframe_count : Z)
    : string :=
  "Data written to the Historical Feature Store and read back "
    +:+ "from " +:+ table_name
    +:+ " has a different count than the feature set dataframe. "
    +:+ Py.newline +:+ "Number of rows in " +:+ table_name +:+ ": "
    +:+ Py.str_of_int written_count +:+ "."
    +:+ Py.newline +:+ "Number of rows in the dataframe: "
    +:+ Py.str_of_int dataframe_count +:+ ".".

(** The two bounds the method computes first,
    [(1 - self.validation_threshold) * written_count] and
    [(1 + self.validation_threshold) * written_count]. *)
Definition lower_bound (self : HistoricalFeatureStoreWriter) (written_count : Z)
    : Py.Result Py.Num :=
  match Py.sub (Py.Int 1) (validation_threshold self) with
  | inr a => Py.mul a (Py.Int written_count)
  | inl e => inl e
  end.

Definition upper_bound (self : HistoricalFeatureStoreWriter) (written_count : Z)
    : Py.Result Py.Num :=
  match Py.add (Py.Int 1) (validation_threshold self) with
  | inr b => Py.mul b (Py.Int written_count)
  | inl e => inl e
  end.

Definition _assert_validation_count (self : HistoricalFeatureStoreWriter) (table_name : string)
    (written_count dataframe_count : Z) : Py.Result unit :=
  match lower_bound self written_count with
  | inl e => inl e
  | inr lower_bound =>
  match upper_bound self written_count with
  | inl e => inl e
  | inr upper_bound =>
  let validation :=
    Py.le lower_bound (Py.Int dataframe_count)
    && Py.le (Py.Int dataframe_count) upper_bound in
  if validation then inr tt
  else inl (Py.AssertionError
              (validation_message table_name written_count dataframe_count))
  end end.

(** *** [validate] *)
Definition validate (feature_set : FeatureSet) (dataframe : DataFrame)
    (spark_client : SparkClient) : M unit :=
  self <- get_self ;;
  let table_name :=
    if negb (debug_mode self)
    then Py.str_of_opt (database self) +:+ "." +:+ name feature_set
    else "historical_feature_store__" +:+ name feature_set in
  written_count <-
    (if negb (debug_mode self) then
       call (GetOptions table_name) ;;;
       let options := get_options (db_config self) table_name in
       call (Read (format_ (db_config self)) options) ;;;
       df <- lift (read spark_client (format_ (db_config self)) options) ;;
       ret (count df)
     else
       call (ReadTable table_name) ;;;
       df <- lift (read_table spark_client table_name) ;;
       ret (count df)) ;;
  let dataframe_count := count dataframe in
  lift (_assert_validation_count self table_name written_count dataframe_count).

(** Running a method on a writer: what it returns or raises, the writer it
    leaves behind, and the calls it made, in order. *)
Definition run {A : Type} (m : M A) (w : HistoricalFeatureStoreWriter) : Py.Result A * State :=
  m {| self := w; calls := [] |}.

Definition result {A : Type} (m : M A) (w : HistoricalFeatureStoreWriter) : Py.Result A :=
  fst (run m w).

Definition writer_after {A : Type} (m : M A) (w : HistoricalFeatureStoreWriter)
    : HistoricalFeatureStoreWriter :=
  self (snd (run m w)).

Definition calls_of {A : Type} (m : M A) (w : HistoricalFeatureStoreWriter) : list Call :=
  calls (snd (run m w)).

(** ** The vocabulary of the statements *)


(** The dataframes the engine hands out: every row has a cell per column. *)
Definition well_formed (df : DataFrame) : Prop :=
  Forall (fun r : Row => length r = length (schema df)) (rows df).

(** The type of the column at a position. *)
Definition type_at (df : DataFrame) (i : nat) : DataType :=
  nth i (map dataType (schema df)) StringType.

(** No two of these column names answer to each other. *)
Fixpoint distinct_names (cs : bool) (names : list string) : bool :=
  match names with
  | [] => true
  | a :: names' =>
      forallb (fun b => negb (resolver cs a b)) names' && distinct_names cs names'
  end.

(** The specification's "a scalar in [0,1]". *)
Definition in_unit_interval (t : Py.Num) : bool :=
  Py.le (Py.Int 0) t && Py.le t (Py.Int 1).

(** The specification's "same dataframe with three additional integer
    columns", each row extended by the year, month and day of its event
    time, which stands in column [i]. *)
Definition partition_fields : list StructField :=
  [ {| field_name := PARTITION_YEAR; dataType := IntegerType |};
    {| field_name := PARTITION_MONTH; dataType := IntegerType |};
    {| field_name := PARTITION_DAY; dataType := IntegerType |} ].

Definition with_partition_values (i : nat) (r : Row) : Row :=
  r ++ [year_of (nth i r Null); month_of (nth i r Null); dayofmonth_of (nth i r Null)].

Definition adds_partition_columns (i : nat) (input output : DataFrame) : Prop :=
  schema output = schema input ++ partition_fields
  /\ rows output ≡ₚ map (with_partition_values i) (rows input).

(** A name without the path separator. *)
Fixpoint slash_free (s : string) : bool :=
  match s with
  | EmptyString => true
  | String c s' => negb (Ascii.eqb c "/") && slash_free s'
  end.

(** ** Strings *)

Lemma append_nil (s : string) : EmptyString +:+ s = s.
Proof. reflexivity. Qed.

Lemma append_cons (x : ascii) (a b : string) : String x a +:+ b = String x (a +:+ b).
Proof. reflexivity. Qed.

Lemma append_assoc (a b c : string) : (a +:+ b) +:+ c = a +:+ (b +:+ c).
Proof.
  induction a as [|x a IH]; [reflexivity|].
  now rewrite !append_cons, IH.
Qed.

Lemma prefix_spec (p s : string) :
  String.prefix p s = true <-> exists post : string, s = p +:+ post.
Proof.
  revert s. induction p as [|x p IH]; intros s.
  - destruct s; simpl; (split; [intros _; eexists; reflexivity | reflexivity]).
  - destruct s as [|y s]; simpl.
    + split; [discriminate | intros [post H]; discriminate].
    + destruct (Ascii.ascii_dec x y) as [->|Hxy].
      * rewrite IH. split; intros [post H]; exists post;
          rewrite append_cons in *; congruence.
      * split; [discriminate | intros [post H]; rewrite append_cons in H; congruence].
Qed.

Lemma contains_spec (needle hay : string) :
  Py.contains needle hay = true <-> Py.includes hay needle.
Proof.
  unfold Py.includes. induction hay as [|y hay IH].
  - cbn [Py.contains]. rewrite orb_false_r, prefix_spec. split.
    + intros [post H]. now exists EmptyString, post.
    + intros [[|x pre] [post H]]; [now exists post | discriminate].
  - cbn [Py.contains]. rewrite orb_true_iff, IH, prefix_spec. split.
    + intros [[post H] | (pre & post & H)].
      * now exists EmptyString, post.
      * exists (String y pre), post. now rewrite append_cons, H.
    + intros [[|x pre] [post H]].
      * left. now exists post.
      * right. exists pre, post. rewrite append_cons in H. congruence.
Qed.

Lemma append_nil_r (s : string) : s +:+ EmptyString = s.
Proof. induction s as [|x s IH]; [reflexivity | now rewrite append_cons, IH]. Qed.

Lemma includes_refl (s : string) : Py.includes s s.
Proof. exists EmptyString, EmptyString. now rewrite append_nil_r. Qed.

Lemma includes_middle (pre needle post : string) :
  Py.includes (pre +:+ needle +:+ post) needle.
Proof. now exists pre, post. Qed.

Lemma includes_append_r (a b needle : string) :
  Py.includes b needle -> Py.includes (a +:+ b) needle.
Proof.
  intros (pre & post & ->). exists (a +:+ pre), post. now rewrite append_assoc.
Qed.

Lemma includes_append_l (a b needle : string) :
  Py.includes a needle -> Py.includes (a +:+ b) needle.
Proof.
  intros (pre & post & ->). exists pre, (post +:+ b). now rewrite !append_assoc.
Qed.

Lemma lower_ascii_idempotent (c : ascii) :
  Py.lower_ascii (Py.lower_ascii c) = Py.lower_ascii c.
Proof.
  destruct c as [[] [] [] [] [] [] [] []]; reflexivity.
Qed.

Lemma lower_idempotent (s : string) : Py.lower (Py.lower s) = Py.lower s.
Proof.
  induction s as [|c s IH]; simpl; [reflexivity|].
  now rewrite lower_ascii_idempotent, IH.
Qed.

(** ** Binary64 arithmetic *)

Lemma digits2_pos_size (p : positive) : digits2_pos p = Pos.size p.
Proof. induction p as [p IH | p IH |]; simpl; now rewrite ?IH. Qed.

Lemma digits2_pos_lower (p : positive) : 2 ^ (Zpos (digits2_pos p) - 1) <= Zpos p.
Proof.
  rewrite digits2_pos_size.
  pose proof (Pos.size_le p) as H.
  apply Pos2Z.pos_le_pos in H. rewrite Pos2Z.inj_pow in H.
  assert (Hk : 2 ^ Zpos (Pos.size p) = 2 * 2 ^ (Zpos (Pos.size p) - 1)).
  { rewrite <- Z.pow_succ_r by lia. f_equal. lia. }
  rewrite Hk, (Pos2Z.inj_xO p) in H. lia.
Qed.

Lemma iter_xO_spec (d p : positive) :
  Zpos (Pos.iter xO p d) = Zpos p * 2 ^ Zpos d
  /\ Zpos (digits2_pos (Pos.iter xO p d)) = Zpos (digits2_pos p) + Zpos d.
Proof.
  induction d as [|d [IH1 IH2]] using Pos.peano_ind.
  - simpl. split; lia.
  - rewrite Pos.iter_succ.
    rewrite (Pos2Z.inj_xO (Pos.iter xO p d)), IH1. simpl digits2_pos.
    rewrite (Pos2Z.inj_succ (digits2_pos _)), IH2, (Pos2Z.inj_succ d).
    rewrite Z.pow_succ_r by lia. split; lia.
Qed.

(** A mantissa that already fits is not rounded. *)
Lemma binary_round_aux_canonical (s : bool) (m : positive) (e : Z) :
  bounded Py.prec Py.emax m e = true ->
  binary_round_aux Py.prec Py.emax s (Zpos m) e loc_Exact = S754_finite s m e.
Proof.
  unfold bounded, canonical_mantissa. intros H.
  apply andb_prop in H as [Hc He]. apply Z.eqb_eq in Hc.
  unfold binary_round_aux, shr_fexp. simpl Zdigits2. rewrite Hc, Z.sub_diag.
  simpl. rewrite Hc, Z.sub_diag. simpl. now rewrite He.
Qed.

Lemma bounded_intro (m : positive) (e : Z) :
  Zpos (digits2_pos m) = 53 -> -52 <= e <= 0 -> bounded Py.prec Py.emax m e = true.
Proof.
  intros Hd He. unfold bounded, canonical_mantissa, fexp, emin, Py.prec, Py.emax.
  apply andb_true_intro; split; [apply Z.eqb_eq | apply Z.leb_le]; lia.
Qed.

(** An int below 2^53 converts without rounding. *)
Lemma float_of_int_exact (p : positive) :
  Zpos p < 2 ^ 53 ->
  exists (m : positive) (e : Z),
    Py.float_of_int (Zpos p) = inr (S754_finite false m e)
    /\ bounded Py.prec Py.emax m e = true
    /\ e <= 0 /\ Zpos m = Zpos p * 2 ^ (- e).
Proof.
  intros Hp.
  pose proof (digits2_pos_lower p) as Hlo.
  assert (Hd : Zpos (digits2_pos p) <= 53).
  { destruct (Z_le_gt_dec (Zpos (digits2_pos p)) 53) as [|Hgt]; [assumption|].
    assert (2 ^ 53 <= 2 ^ (Zpos (digits2_pos p) - 1)) by (apply Z.pow_le_mono_r; lia).
    lia. }
  unfold Py.float_of_int, binary_normalize, binary_round, shl_align.
  assert (Hf : fexp Py.prec Py.emax (Zpos (digits2_pos p) + 0) = Zpos (digits2_pos p) - 53).
  { unfold fexp, emin, Py.prec, Py.emax. lia. }
  rewrite Hf.
  destruct (Zpos (digits2_pos p) - 53 - 0) as [|d|d] eqn:Hsh; try lia.
  - assert (Hb : bounded Py.prec Py.emax p (Zpos (digits2_pos p) - 53) = true)
      by (apply bounded_intro; lia).
    replace (Zpos (digits2_pos p) - 53) with 0 in Hb by lia.
    exists p, 0. rewrite binary_round_aux_canonical by exact Hb.
    repeat split; try lia; exact Hb.
  - destruct (iter_xO_spec d p) as [Hv Hdg].
    assert (Hb : bounded Py.prec Py.emax (Pos.iter xO p d) (Zpos (digits2_pos p) - 53) = true)
      by (apply bounded_intro; lia).
    exists (Pos.iter xO p d), (Zpos (digits2_pos p) - 53).
    rewrite binary_round_aux_canonical by exact Hb.
    repeat split; try lia; try exact Hb.
    rewrite Hv. f_equal. f_equal. lia.
Qed.









(** ** Count validation *)

Lemma bounds_int (self : HistoricalFeatureStoreWriter) (n w : Z) :
  validation_threshold self = Py.Int n ->
  lower_bound self w = inr (Py.Int ((1 - n) * w))
  /\ upper_bound self w = inr (Py.Int ((1 + n) * w)).
Proof. unfold lower_bound, upper_bound. intros ->. split; reflexivity. Qed.

Lemma bounds_float (self : HistoricalFeatureStoreWriter) (f fw : spec_float) (w : Z) :
  validation_threshold self = Py.Float f ->
  Py.float_of_int w = inr fw ->
  lower_bound self w
    = inr (Py.Float (Py.float_mul (Py.float_sub Py.float_one f) fw))
  /\ upper_bound self w
    = inr (Py.Float (Py.float_mul (Py.float_add Py.float_one f) fw)).
Proof.
  unfold lower_bound, upper_bound. intros -> Hw.
  change (Py.sub (Py.Int 1) (Py.Float f))
    with (@inr Py.Exception _ (Py.Float (Py.float_sub Py.float_one f))).
  change (Py.add (Py.Int 1) (Py.Float f))
    with (@inr Py.Exception _ (Py.Float (Py.float_add Py.float_one f))).
  unfold Py.mul, Py.binop, Py.to_float. rewrite Hw. split; reflexivity.
Qed.

Lemma assert_validation_count_cases (self : HistoricalFeatureStoreWriter)
    (table : string) (w d : Z)
    (lo hi : Py.Num) :
  lower_bound self w = inr lo -> upper_bound self w = inr hi ->
  (_assert_validation_count self table w d = inr tt
     <-> Py.le lo (Py.Int d) = true /\ Py.le (Py.Int d) hi = true)
  /\ (_assert_validation_count self table w d = inr tt
      \/ _assert_validation_count self table w d
           = inl (Py.AssertionError (validation_message table w d))).
Proof.
  intros Hlo Hhi. unfold _assert_validation_count. rewrite Hlo, Hhi.
  destruct (Py.le lo (Py.Int d)), (Py.le (Py.Int d) hi); simpl;
    (split; [split; [intros H; try discriminate; now split | intros [? ?]; congruence]
            | auto]).
Qed.

Lemma message_carries (table : string) (w d : Z) :
  Py.includes (validation_message table w d) table
  /\ Py.includes (validation_message table w d) (Py.str_of_int w)
  /\ Py.includes (validation_message table w d) (Py.str_of_int d).
Proof.
  unfold validation_message. repeat split.
  - do 2 apply includes_append_r. apply includes_append_l. apply includes_refl.
  - do 8 apply includes_append_r. apply includes_append_l. apply includes_refl.
  - do 12 apply includes_append_r. apply includes_append_l. apply includes_refl.
Qed.

Lemma float_of_int_error (w : Z) (e : Py.Exception) :
  Py.float_of_int w = inl e -> exists msg : string, e = Py.OverflowError msg.
Proof.
  unfold Py.float_of_int.
  destruct (binary_normalize Py.prec Py.emax w 0 false); intros H;
    try discriminate; injection H as <-; eauto.
Qed.

(** A bound fails to be computed only when the count does not fit a float. *)
Lemma bound_error (self : HistoricalFeatureStoreWriter) (w : Z) (e : Py.Exception) :
  lower_bound self w = inl e \/ upper_bound self w = inl e ->
  exists msg : string, e = Py.OverflowError msg.
Proof.
  unfold lower_bound, upper_bound.
  destruct (validation_threshold self) as [n | f].
  - intros [H | H]; discriminate.
  - change (Py.sub (Py.Int 1) (Py.Float f))
      with (@inr Py.Exception _ (Py.Float (Py.float_sub Py.float_one f))).
    change (Py.add (Py.Int 1) (Py.Float f))
      with (@inr Py.Exception _ (Py.Float (Py.float_add Py.float_one f))).
    unfold Py.mul, Py.binop, Py.to_float.
    destruct (Py.float_of_int w) as [e' | fw] eqn:Hw.
    + destruct (float_of_int_error w e' Hw) as [msg ->].
      intros [H | H]; injection H as <-; eauto.
    + intros [H | H]; discriminate.
Qed.





(** ** Dataframes *)

Lemma resolver_refl (cs : bool) (a : string) : resolver cs a a = true.
Proof. unfold resolver. destruct cs; apply String.eqb_refl. Qed.

Lemma resolver_sym (cs : bool) (a b : string) : resolver cs a b = resolver cs b a.
Proof. unfold resolver. destruct cs; apply String.eqb_sym. Qed.

Lemma positions_from_app (cs : bool) (c : string) (l1 l2 : list StructField) (k : nat) :
  positions_from cs c (l1 ++ l2) k
  = positions_from cs c l1 k ++ positions_from cs c l2 (k + length l1)%nat.
Proof.
  revert k. induction l1 as [|f l1 IH]; intros k; simpl.
  - now rewrite Nat.add_0_r.
  - rewrite IH, <- app_assoc. do 3 f_equal. lia.
Qed.

Lemma positions_from_bound (cs : bool) (c : string) (l : list StructField) (k j : nat) :
  In j (positions_from cs c l k) -> (k <= j < k + length l)%nat.
Proof.
  revert k. induction l as [|f l IH]; intros k; simpl; [intros []|].
  rewrite in_app_iff. intros [H | H].
  - destruct (resolver cs (field_name f) c); simpl in H; [lia | destruct H].
  - apply IH in H. lia.
Qed.

Lemma rows_map (g : Row -> Row) (ps : list (list Row)) :
  concat (map (map g) ps) = map g (concat ps).
Proof.
  induction ps as [|p ps IH]; simpl; [reflexivity|]. now rewrite IH, map_app.
Qed.

(** Adding a column under a name no column answers to. *)
Lemma withColumn_fresh (df : DataFrame) (colName : string) (col : Column) :
  positions df colName = [] ->
  withColumn_resolved df colName col
  = {| schema := schema df ++ [{| field_name := colName; dataType := col_type col |}];
       partitions := map (map (fun r => r ++ [col_eval col r])) (partitions df);
       caseSensitive := caseSensitive df |}.
Proof. unfold withColumn_resolved. intros ->. reflexivity. Qed.

Lemma positions_withColumn_fresh (df : DataFrame) (colName c : string) (col : Column) :
  positions df colName = [] ->
  positions (withColumn_resolved df colName col) c
  = positions df c ++ (if resolver (caseSensitive df) colName c
                       then [length (schema df)] else []).
Proof.
  intros H. rewrite (withColumn_fresh df colName col H).
  unfold positions. simpl. rewrite positions_from_app. simpl.
  now rewrite app_nil_r.
Qed.

Lemma getitem_unique (df : DataFrame) (c : string) (i : nat) :
  positions df c = [i] ->
  exists col : Column, getitem df c = inr col /\ forall r, col_eval col r = nth i r Null.
Proof. unfold getitem. intros ->. eexists. split; reflexivity. Qed.

Lemma getitem_typed (df : DataFrame) (c : string) (i : nat) :
  positions df c = [i] ->
  exists col : Column,
    getitem df c = inr col
    /\ (forall r, col_eval col r = nth i r Null)
    /\ col_type col = type_at df i
    /\ col_mismatch col = None.
Proof. unfold getitem. intros ->. eexists. repeat split. Qed.

(** [withColumn] with the year, the month or the day of a column that is
    itself in order: the type of the column decides. *)
Lemma withColumn_date_part (df : DataFrame) (colName function : string)
    (col c : Column) :
  col_mismatch col = date_mismatch function c ->
  col_mismatch c = None ->
  withColumn df colName col
  = if date_like (col_type c) then inr (withColumn_resolved df colName col)
    else inl (Py.AnalysisException
                ("cannot resolve '" +:+ function
                 +:+ "' due to data type mismatch: argument 1 requires date type")).
Proof.
  unfold withColumn, date_mismatch. intros -> ->.
  now destruct (date_like (col_type c)).
Qed.

Lemma withColumn_inv (df out : DataFrame) (colName : string) (col : Column) :
  withColumn df colName col = inr out ->
  col_mismatch col = None /\ out = withColumn_resolved df colName col.
Proof.
  unfold withColumn. destruct (col_mismatch col); [discriminate|].
  intros H. now injection H as <-.
Qed.

Lemma withColumn_error (df : DataFrame) (colName : string) (col : Column)
    (e : Py.Exception) :
  withColumn df colName col = inl e -> exists msg : string, e = Py.AnalysisException msg.
Proof.
  unfold withColumn. destruct (col_mismatch col); [|discriminate].
  intros H. injection H as <-. eauto.
Qed.

(** *** Repartitioning keeps the rows *)

Lemma filter_disjoint_app {A : Type} (P Q : A -> bool) (l : list A) :
  (forall x, In x l -> P x = true -> Q x = false) ->
  List.filter P l ++ List.filter Q l ≡ₚ List.filter (fun x => P x || Q x) l.
Proof.
  induction l as [|x l IH]; intros H; simpl; [reflexivity|].
  assert (IH' : List.filter P l ++ List.filter Q l
                ≡ₚ List.filter (fun x => P x || Q x) l)
    by (apply IH; intros y Hy; apply H; now right).
  destruct (P x) eqn:HP; simpl.
  - rewrite (H x (or_introl eq_refl) HP). simpl. now rewrite IH'.
  - destruct (Q x); simpl.
    + rewrite <- Permutation_middle. now rewrite IH'.
    + exact IH'.
Qed.

Lemma filter_all {A : Type} (P : A -> bool) (l : list A) :
  (forall x, In x l -> P x = true) -> List.filter P l = l.
Proof.
  induction l as [|x l IH]; intros H; simpl; [reflexivity|].
  rewrite (H x (or_introl eq_refl)), IH; [reflexivity|].
  intros y Hy. apply H. now right.
Qed.

Lemma buckets_collect (b : Row -> Z) (ks : list nat) (l : list Row) :
  NoDup ks ->
  concat (map (fun i => List.filter (fun r => b r =? Z.of_nat i) l) ks)
  ≡ₚ List.filter (fun r => existsb (fun i => b r =? Z.of_nat i) ks) l.
Proof.
  induction ks as [|k ks IH]; intros Hnd; simpl.
  - induction l as [|x l IHl]; simpl; [reflexivity | exact IHl].
  - apply NoDup_cons in Hnd as [Hk Hnd].
    rewrite (IH Hnd). apply filter_disjoint_app.
    intros r _ Hr. apply Z.eqb_eq in Hr.
    apply not_true_is_false. intros He.
    apply existsb_exists in He as (i & Hi & Hbi). apply Z.eqb_eq in Hbi.
    assert (i = k) by lia. subst i. apply Hk. now apply list_elem_of_In.
Qed.

Lemma buckets_permutation (b : Row -> Z) (n : nat) (l : list Row) :
  (forall r, 0 <= b r < Z.of_nat n) ->
  concat (map (fun i => List.filter (fun r => b r =? Z.of_nat i) l) (seq 0 n)) ≡ₚ l.
Proof.
  intros Hb. rewrite buckets_collect by apply NoDup_seq.
  rewrite filter_all; [reflexivity|].
  intros r _. apply existsb_exists. exists (Z.to_nat (b r)). split.
  - apply in_seq. specialize (Hb r). lia.
  - apply Z.eqb_eq. specialize (Hb r). lia.
Qed.

Lemma repartition_rows (df out : DataFrame) (n : Z) (cols : list string) :
  repartition df n cols = inr out ->
  schema out = schema df /\ caseSensitive out = caseSensitive df
  /\ rows out ≡ₚ rows df.
Proof.
  unfold repartition. destruct (n <=? 0) eqn:Hn; [discriminate|].
  apply Z.leb_gt in Hn.
  destruct (key_columns df cols) as [e | keys]; [discriminate|].
  intros H. injection H as <-. simpl. repeat split.
  unfold rows at 1. simpl. apply buckets_permutation.
  intros r. unfold bucket. rewrite Z2Nat.id by lia. apply Z.mod_pos_bound. lia.
Qed.

(** *** The three partition columns *)

Lemma withColumn_fresh_facts (df : DataFrame) (colName : string) (col : Column) :
  positions df colName = [] ->
  schema (withColumn_resolved df colName col)
    = schema df ++ [{| field_name := colName; dataType := col_type col |}]
  /\ rows (withColumn_resolved df colName col) = map (fun r => r ++ [col_eval col r]) (rows df)
  /\ caseSensitive (withColumn_resolved df colName col) = caseSensitive df
  /\ forall c : string,
       positions (withColumn_resolved df colName col) c
       = positions df c ++ (if resolver (caseSensitive df) colName c
                            then [length (schema df)] else []).
Proof.
  intros H. split; [|split; [|split]].
  - now rewrite (withColumn_fresh df colName col H).
  - rewrite (withColumn_fresh df colName col H). unfold rows. simpl. apply rows_map.
  - now rewrite (withColumn_fresh df colName col H).
  - intros c. now apply positions_withColumn_fresh.
Qed.

Lemma distinct_names_four (cs : bool) (a b c d : string) :
  distinct_names cs [a; b; c; d] = true ->
  resolver cs b a = false /\ resolver cs c a = false
  /\ resolver cs b c = false /\ resolver cs b d = false /\ resolver cs c d = false
  /\ resolver cs c b = false /\ resolver cs d b = false /\ resolver cs d c = false.
Proof.
  simpl. rewrite !andb_true_r, !andb_true_iff, !negb_true_iff.
  intros ((Hab & Hac & Had) & (Hbc & Hbd) & Hcd).
  rewrite (resolver_sym cs b a), (resolver_sym cs c a), (resolver_sym cs c b),
    (resolver_sym cs d b), (resolver_sym cs d c).
  repeat split; assumption.
Qed.

Lemma with_partition_values_steps (i : nat) (r : Row) :
  (i < length r)%nat ->
  ((r ++ [year_of (nth i r Null)])
     ++ [month_of (nth i (r ++ [year_of (nth i r Null)]) Null)])
    ++ [dayofmonth_of
          (nth i ((r ++ [year_of (nth i r Null)])
                    ++ [month_of (nth i (r ++ [year_of (nth i r Null)]) Null)]) Null)]
  = with_partition_values i r.
Proof.
  intros Hi. unfold with_partition_values.
  rewrite !(app_nth1 _ _ Null) by (rewrite ?length_app; simpl; lia).
  now rewrite <- !app_assoc.
Qed.

(** What [_create_partitions] computes on a dataframe that has the event
    time in one column and none of the partition columns yet. *)
Lemma create_partitions_spec (self : HistoricalFeatureStoreWriter) (df : DataFrame) (i : nat) :
  positions df TIMESTAMP_COLUMN = [i] ->
  positions df PARTITION_YEAR = [] ->
  positions df PARTITION_MONTH = [] ->
  positions df PARTITION_DAY = [] ->
  distinct_names (caseSensitive df)
    [TIMESTAMP_COLUMN; PARTITION_YEAR; PARTITION_MONTH; PARTITION_DAY] = true ->
  well_formed df ->
  (forall out : DataFrame,
     _create_partitions self df = inr out -> adds_partition_columns i df out)
  /\ (date_like (type_at df i) = true ->
      0 < num_partitions self ->
      exists out : DataFrame, _create_partitions self df = inr out)
  /\ (date_like (type_at df i) = false ->
      exists msg : string, _create_partitions self df = inl (Py.AnalysisException msg)).
Proof.
  intros Hts Hy Hm Hd Hdist Hwf.
  apply distinct_names_four in Hdist
    as (Hyt & Hmt & Hym & Hyd & Hmd & Hmy & Hdy & Hdm).
  assert (Hi : (i < length (schema df))%nat).
  { assert (Hin : In i (positions df TIMESTAMP_COLUMN)) by (rewrite Hts; now left).
    apply positions_from_bound in Hin. lia. }
  unfold _create_partitions.
  (* year *)
  destruct (getitem_typed df _ i Hts) as (c0 & -> & Hc0 & Ht0 & Hm0).
  rewrite (withColumn_date_part df PARTITION_YEAR "year" (year c0) c0 eq_refl Hm0), Ht0.
  destruct (date_like (type_at df i)) eqn:Hdate.
  2: { split; [intros out H; discriminate|]. split; [discriminate | eauto]. }
  destruct (withColumn_fresh_facts df PARTITION_YEAR (year c0) Hy)
    as (S1 & R1 & C1 & P1).
  set (df1 := withColumn_resolved df PARTITION_YEAR (year c0)) in *.
  assert (Hts1 : positions df1 TIMESTAMP_COLUMN = [i]) by now rewrite P1, Hts, Hyt.
  assert (Hm1 : positions df1 PARTITION_MONTH = []) by now rewrite P1, Hm, Hym.
  assert (T1 : type_at df1 i = type_at df i).
  { unfold type_at. rewrite S1, map_app, app_nth1; [reflexivity|].
    now rewrite length_map. }
  (* month *)
  destruct (getitem_typed df1 _ i Hts1) as (c1 & -> & Hc1 & Ht1 & Hm1').
  rewrite (withColumn_date_part df1 PARTITION_MONTH "month" (month c1) c1 eq_refl Hm1'),
    Ht1, T1, Hdate.
  destruct (withColumn_fresh_facts df1 PARTITION_MONTH (month c1) Hm1)
    as (S2 & R2 & C2 & P2).
  set (df2 := withColumn_resolved df1 PARTITION_MONTH (month c1)) in *.
  assert (Hts2 : positions df2 TIMESTAMP_COLUMN = [i])
    by now rewrite P2, Hts1, C1, Hmt.
  assert (Hd2 : positions df2 PARTITION_DAY = [])
    by now rewrite P2, P1, Hd, C1, Hyd, Hmd.
  assert (T2 : type_at df2 i = type_at df i).
  { unfold type_at. rewrite S2, S1, !map_app, !app_nth1; [reflexivity | |].
    - now rewrite length_map.
    - rewrite length_app, !length_map. lia. }
  (* day *)
  destruct (getitem_typed df2 _ i Hts2) as (c2 & -> & Hc2 & Ht2 & Hm2').
  rewrite (withColumn_date_part df2 PARTITION_DAY "dayofmonth" (dayofmonth c2) c2
             eq_refl Hm2'), Ht2, T2, Hdate.
  destruct (withColumn_fresh_facts df2 PARTITION_DAY (dayofmonth c2) Hd2)
    as (S3 & R3 & C3 & P3).
  set (df3 := withColumn_resolved df2 PARTITION_DAY (dayofmonth c2)) in *.
  assert (Hrows : rows df3 = map (with_partition_values i) (rows df)).
  { rewrite R3, R2, R1, !map_map. apply map_ext_in. intros r Hr.
    simpl. rewrite Hc2, Hc1, Hc0. apply with_partition_values_steps.
    unfold well_formed in Hwf. rewrite Forall_forall in Hwf.
    rewrite (Hwf r); [exact Hi | now apply list_elem_of_In]. }
  assert (Hschema : schema df3 = schema df ++ partition_fields).
  { rewrite S3, S2, S1. unfold partition_fields. now rewrite <- !app_assoc. }
  split; [|split; [|discriminate]].
  - intros out Hout. unfold repartition_df in Hout.
    apply repartition_rows in Hout as (Hs & _ & Hr).
    split; [now rewrite Hs, Hschema | now rewrite Hr, Hrows].
  - intros _ Hn. unfold repartition_df, repartition.
    assert (Hn' : (num_partitions self <=? 0) = false) by (apply Z.leb_gt; lia).
    rewrite Hn'.
    assert (Hk : exists keys, key_columns df3 PARTITION_BY = inr keys).
    { unfold PARTITION_BY, key_columns, getitem.
      rewrite !P3, !P2, !P1, Hy, Hm, Hd, !C2, !C1, !resolver_refl.
      rewrite Hmy, Hdy, Hym, Hdm, Hyd, Hmd. simpl. eauto. }
    destruct Hk as [keys ->]. eauto.
Qed.

(** ** [load], step by step *)

Lemma create_partitions_num_partitions (w w' : HistoricalFeatureStoreWriter)
    (df : DataFrame) :
  num_partitions w' = num_partitions w ->
  _create_partitions w' df = _create_partitions w df.
Proof. unfold _create_partitions. now intros ->. Qed.

(** Everything one call of [load] does: the writer it leaves behind, the
    calls it makes, and what it returns or raises. *)
Lemma load_run (feature_set : FeatureSet) (df : DataFrame) (sc : SparkClient)
    (w : HistoricalFeatureStoreWriter) :
  run (load feature_set df sc) w =
  let hook :=
    match check_schema w with
    | Some h => h
    | None => SparkTableSchemaCompatibilityHook sc (name feature_set) (database w)
    end in
  let w' := set_pre_hooks (pre_hooks w ++ [hook]) (set_check_schema (Some hook) w) in
  let made :=
    match check_schema w with
    | Some _ => []
    | None => [NewSchemaHook (name feature_set) (database w)]
    end in
  let key := Py.os_path_join "historical" [entity feature_set; name feature_set] in
  let mode := Py.lower (conf sc "spark.sql.sources.partitionOverwriteMode") in
  match _create_partitions w df with
  | inl e => (inl e, {| self := w'; calls := made |})
  | inr out =>
      let plan :=
        {| load_df := out;
           plan_db_config := db_config w;
           options := {[ "path" := get_options (db_config w) key !! "path" ]};
           plan_database := database w;
           table_name := name feature_set;
           partition_by := PARTITION_BY |} in
      if debug_mode w then
        (inr plan, {| self := w'; calls := made ++ [GetOptions key] |})
      else if String.eqb mode "dynamic" then
        (inr plan,
         {| self := w';
            calls := made ++ [ConfGet "spark.sql.sources.partitionOverwriteMode";
                              GetOptions key] |})
      else
        (inl (Py.RuntimeError (overwrite_mode_message mode)),
         {| self := w';
            calls := made ++ [ConfGet "spark.sql.sources.partitionOverwriteMode"] |})
  end.
Proof.
  destruct w as [dm ph cfg [h|] db np vt];
    unfold run, load, add_pre_hook, bind, ret, raise, lift, call, update_self,
      get_self, set_pre_hooks, set_check_schema;
    cbn [self calls check_schema debug_mode pre_hooks db_config database
         num_partitions validation_threshold app].
  - change (_create_partitions _ df)
      with (_create_partitions
              (Build_HistoricalFeatureStoreWriter dm ph cfg (Some h) db np vt) df).
    destruct (_create_partitions _ df); [reflexivity|].
    destruct dm; [reflexivity|]. cbn [negb].
    destruct (String.eqb _ "dynamic"); reflexivity.
  - change (_create_partitions _ df)
      with (_create_partitions
              (Build_HistoricalFeatureStoreWriter dm ph cfg None db np vt) df).
    destruct (_create_partitions _ df); [reflexivity|].
    destruct dm; [reflexivity|]. cbn [negb].
    destruct (String.eqb _ "dynamic"); reflexivity.
Qed.

Lemma load_writer_after (feature_set : FeatureSet) (df : DataFrame) (sc : SparkClient)
    (w : HistoricalFeatureStoreWriter) :
  writer_after (load feature_set df sc) w =
  let hook :=
    match check_schema w with
    | Some h => h
    | None => SparkTableSchemaCompatibilityHook sc (name feature_set) (database w)
    end in
  set_pre_hooks (pre_hooks w ++ [hook]) (set_check_schema (Some hook) w).
Proof.
  unfold writer_after. rewrite load_run. cbv zeta.
  destruct (_create_partitions w df); [reflexivity|].
  destruct (debug_mode w); [reflexivity|].
  destruct (String.eqb _ "dynamic"); reflexivity.
Qed.

Lemma create_partitions_error (w : HistoricalFeatureStoreWriter) (df : DataFrame)
    (e : Py.Exception) :
  _create_partitions w df = inl e -> forall msg, e <> Py.RuntimeError msg.
Proof.
  unfold _create_partitions, repartition_df, repartition.
  assert (Hg : forall d c e', getitem d c = inl e' -> forall msg, e' <> Py.RuntimeError msg).
  { unfold getitem. intros d c e'. destruct (positions d c) as [|i [|j l]];
      intros H; try discriminate; injection H as <-; discriminate. }
  assert (Hk : forall d cols e',
             key_columns d cols = inl e' -> forall msg, e' <> Py.RuntimeError msg).
  { intros d cols. induction cols as [|c cols IH]; simpl; intros e' H; [discriminate|].
    destruct (getitem d c) as [e1|k] eqn:Hc.
    - assert (e' = e1) as -> by (destruct (key_columns d cols); congruence).
      eapply Hg; eauto.
    - destruct (key_columns d cols) as [e2|ks]; [|discriminate].
      injection H as <-. now apply IH. }
  repeat lazymatch goal with
         | |- match getitem ?d ?c with _ => _ end = _ -> _ =>
             let H := fresh "H" in
             destruct (getitem d c) eqn:H;
               [intros H'; injection H' as <-; eapply Hg; eassumption | cbv zeta]
         | |- match withColumn ?d ?c ?col with _ => _ end = _ -> _ =>
             let H := fresh "H" in
             destruct (withColumn d c col) eqn:H;
               [intros H'; injection H' as <-;
                apply withColumn_error in H; destruct H as [m ->]; discriminate
               | cbv zeta]
         end.
  destruct (num_partitions w <=? 0).
  { intros H'. injection H' as <-. discriminate. }
  destruct (key_columns _ PARTITION_BY) as [e3|ks] eqn:Hkeys; [|discriminate].
  intros H'. injection H' as <-. eapply Hk; eauto.
Qed.

(** C2.  With debug mode off and a partition-overwrite mode whose lower-cased
    value is not ["dynamic"], [load] raises and returns no write plan; when
    the partition columns could be derived the error is the [RuntimeError]
    of the guard, raised after the setting was read and before the storage
    configuration is asked for options.  With debug mode on, [load] never
    reads the setting, and what it returns does not depend on the Spark
    client at all. *)
Theorem load_overwrite_mode_guard (feature_set : FeatureSet) (df : DataFrame)
    (sc : SparkClient) (w : HistoricalFeatureStoreWriter) :
  (debug_mode w = false ->
   Py.lower (conf sc "spark.sql.sources.partitionOverwriteMode") <> "dynamic" ->
   (exists e : Py.Exception, result (load feature_set df sc) w = inl e)
   /\ (forall out : DataFrame, _create_partitions w df = inr out ->
         result (load feature_set df sc) w
         = inl (Py.RuntimeError
                  (overwrite_mode_message
                     (Py.lower (conf sc "spark.sql.sources.partitionOverwriteMode"))))
         /\ In (ConfGet "spark.sql.sources.partitionOverwriteMode")
               (calls_of (load feature_set df sc) w))
   /\ (forall key : string, ~ In (GetOptions key) (calls_of (load feature_set df sc) w)))
  /\ (debug_mode w = true ->
      (forall key : string, ~ In (ConfGet key) (calls_of (load feature_set df sc) w))
      /\ (forall sc' : SparkClient,
            result (load feature_set df sc') w = result (load feature_set df sc) w)).
Proof.
  split.
  - intros Hdebug Hmode. apply String.eqb_neq in Hmode.
    unfold result, calls_of. rewrite load_run. cbv zeta. rewrite Hdebug, Hmode.
    destruct (_create_partitions w df) as [e|out]; simpl.
    + split; [eauto|]. split; [discriminate|].
      intros key. destruct (check_schema w); simpl; intros H; [destruct H|].
      destruct H as [H|[]]; discriminate.
    + split; [eauto|]. split.
      * intros out' _. split; [reflexivity|]. apply in_or_app. right. now left.
      * intros key H. apply in_app_or in H as [H|H].
        -- destruct (check_schema w); simpl in H; [destruct H|].
           destruct H as [H|[]]; discriminate.
        -- destruct H as [H|[]]; discriminate.
  - intros Hdebug. split.
    + intros key. unfold calls_of. rewrite load_run. cbv zeta. rewrite Hdebug.
      destruct (_create_partitions w df) as [e|out]; simpl.
      * destruct (check_schema w); simpl; intros H; [destruct H|].
        destruct H as [H|[]]; discriminate.
      * intros H. apply in_app_or in H as [H|H].
        -- destruct (check_schema w); simpl in H; [destruct H|].
           destruct H as [H|[]]; discriminate.
        -- destruct H as [H|[]]; discriminate.
    + intros sc'. unfold result. rewrite !load_run. cbv zeta. rewrite Hdebug.
      destruct (_create_partitions w df); reflexivity.
Qed.

(** C9 (as amended).  The [RuntimeError] of the overwrite-mode guard carries
    the lower-cased mode: the message is built from the value after
    [.lower()], so it includes the observed value itself only when that
    value has no upper-case letter. *)
Theorem overwrite_mode_error_message (feature_set : FeatureSet) (df : DataFrame)
    (sc : SparkClient) (w : HistoricalFeatureStoreWriter) :
  debug_mode w = false ->
  Py.lower (conf sc "spark.sql.sources.partitionOverwriteMode") <> "dynamic" ->
  (forall out : DataFrame, _create_partitions w df = inr out ->
     result (load feature_set df sc) w
     = inl (Py.RuntimeError
              (overwrite_mode_message
                 (Py.lower (conf sc "spark.sql.sources.partitionOverwriteMode")))))
  /\ (forall msg : string,
        result (load feature_set df sc) w = inl (Py.RuntimeError msg) ->
        Py.includes msg (Py.lower (conf sc "spark.sql.sources.partitionOverwriteMode")))
  /\ (forall msg : string,
        result (load feature_set df sc) w = inl (Py.RuntimeError msg) ->
        Py.lower (conf sc "spark.sql.sources.partitionOverwriteMode")
        = conf sc "spark.sql.sources.partitionOverwriteMode" ->
        Py.includes msg (conf sc "spark.sql.sources.partitionOverwriteMode")).
Proof.
  intros Hdebug Hmode.
  assert (Hmsg : forall msg : string,
             result (load feature_set df sc) w = inl (Py.RuntimeError msg) ->
             msg = overwrite_mode_message
                     (Py.lower (conf sc "spark.sql.sources.partitionOverwriteMode"))).
  { intros msg. unfold result. rewrite load_run. cbv zeta.
    apply String.eqb_neq in Hmode. rewrite Hdebug, Hmode.
    destruct (_create_partitions w df) as [e|out] eqn:Hcp; simpl.
    - intros H. injection H as ->.
      exfalso. exact (create_partitions_error w df _ Hcp msg eq_refl).
    - intros H. now injection H as <-. }
  split; [|split].
  - intros out Hout. unfold result. rewrite load_run. cbv zeta.
    apply String.eqb_neq in Hmode. now rewrite Hout, Hdebug, Hmode.
  - intros msg H. rewrite (Hmsg msg H). apply includes_middle.
  - intros msg H Hlow. rewrite <- Hlow, (Hmsg msg H). apply includes_middle.
Qed.

(** C3 (as amended).  When the event-time column is there, no column of the
    input already answers to one of the three partition names, and the rows
    have a cell per column, the dataframe of the write plan is the input
    with exactly three more integer columns, the year, month and day of each
    row's event time; the rows come back in the order the repartition
    leaves them.  Such a plan is returned whenever the event-time column is
    a timestamp (or a date or a string, which the date functions take as
    well), the partition count is positive and the overwrite-mode guard lets
    the call through.  On an event-time column of any other type [load]
    raises the analysis error of the date functions and returns no plan. *)
Theorem load_adds_partition_columns (feature_set : FeatureSet) (df : DataFrame)
    (sc : SparkClient) (w : HistoricalFeatureStoreWriter) (i : nat) :
  positions df TIMESTAMP_COLUMN = [i] ->
  positions df PARTITION_YEAR = [] ->
  positions df PARTITION_MONTH = [] ->
  positions df PARTITION_DAY = [] ->
  distinct_names (caseSensitive df)
    [TIMESTAMP_COLUMN; PARTITION_YEAR; PARTITION_MONTH; PARTITION_DAY] = true ->
  well_formed df ->
  (forall plan : WritePlan,
     result (load feature_set df sc) w = inr plan ->
     adds_partition_columns i df (load_df plan))
  /\ (date_like (type_at df i) = true ->
      0 < num_partitions w ->
      debug_mode w = true
      \/ Py.lower (conf sc "spark.sql.sources.partitionOverwriteMode") = "dynamic" ->
      exists plan : WritePlan, result (load feature_set df sc) w = inr plan)
  /\ (date_like (type_at df i) = false ->
      exists msg : string,
        result (load feature_set df sc) w = inl (Py.AnalysisException msg)).
Proof.
  intros Hts Hy Hm Hd Hdist Hwf.
  destruct (create_partitions_spec w df i Hts Hy Hm Hd Hdist Hwf)
    as (Hadds & Hex & Hraise).
  split; [|split].
  - intros plan. unfold result. rewrite load_run. cbv zeta.
    destruct (_create_partitions w df) as [e|out]; [discriminate|].
    specialize (Hadds out eq_refl).
    destruct (debug_mode w); simpl.
    + intros H. now injection H as <-.
    + destruct (String.eqb _ "dynamic"); simpl; [|discriminate].
      intros H. now injection H as <-.
  - intros Hdate Hn Hguard. destruct (Hex Hdate Hn) as [out Hout].
    unfold result. rewrite load_run. cbv zeta. rewrite Hout.
    destruct Hguard as [-> | Hdyn]; [simpl; eauto|].
    apply String.eqb_eq in Hdyn. rewrite Hdyn.
    destruct (debug_mode w); simpl; eauto.
  - intros Hdate. destruct (Hraise Hdate) as [msg Hmsg].
    exists msg. unfold result. rewrite load_run. cbv zeta. now rewrite Hmsg.
Qed.

(** C4.  Whatever the feature set and the dataframe, the partition-column
    list of a write plan that [load] returns is the year, the month and the
    day column, in that order. *)
Theorem load_partition_by (feature_set : FeatureSet) (df : DataFrame)
    (sc : SparkClient) (w : HistoricalFeatureStoreWriter) (plan : WritePlan) :
  result (load feature_set df sc) w = inr plan ->
  partition_by plan = [PARTITION_YEAR; PARTITION_MONTH; PARTITION_DAY].
Proof.
  unfold result. rewrite load_run. cbv zeta.
  destruct (_create_partitions w df) as [e|out]; [discriminate|].
  destruct (debug_mode w); simpl.
  - intros H. now injection H as <-.
  - destruct (String.eqb _ "dynamic"); simpl; [|discriminate].
    intros H. now injection H as <-.
Qed.

(** C5.  The only key [load] passes to the option lookup of the storage
    configuration is the path join of ["historical"], the entity and the
    name of the feature set: the database name and the partition count of
    the writer do not enter it.  A returned plan comes with that lookup
    made, and its options hold the ["path"] entry of the answer. *)
Theorem load_storage_key (feature_set : FeatureSet) (df : DataFrame)
    (sc : SparkClient) (w : HistoricalFeatureStoreWriter) :
  (forall key : string,
     In (GetOptions key) (calls_of (load feature_set df sc) w) ->
     key = Py.os_path_join "historical" [entity feature_set; name feature_set])
  /\ (forall plan : WritePlan,
        result (load feature_set df sc) w = inr plan ->
        In (GetOptions
              (Py.os_path_join "historical" [entity feature_set; name feature_set]))
           (calls_of (load feature_set df sc) w)
        /\ options plan
           = {[ "path" :=
                  get_options (db_config w)
                    (Py.os_path_join "historical" [entity feature_set; name feature_set])
                    !! "path" ]})
  /\ (forall (df' : DataFrame) (sc' : SparkClient) (w' : HistoricalFeatureStoreWriter)
             (key key' : string),
        In (GetOptions key) (calls_of (load feature_set df sc) w) ->
        In (GetOptions key') (calls_of (load feature_set df' sc') w') ->
        key = key').
Proof.
  assert (Hkey : forall (d : DataFrame) (s : SparkClient)
                   (x : HistoricalFeatureStoreWriter) (key : string),
             In (GetOptions key) (calls_of (load feature_set d s) x) ->
             key = Py.os_path_join "historical" [entity feature_set; name feature_set]).
  { intros d s x key. unfold calls_of. rewrite load_run. cbv zeta.
    assert (Hmade : ~ In (GetOptions key)
                      match check_schema x with
                      | Some _ => []
                      | None => [NewSchemaHook (name feature_set) (database x)]
                      end).
    { destruct (check_schema x); simpl; [intros []|]. intros [H|[]]; discriminate. }
    destruct (_create_partitions x d) as [e|out]; simpl; [intros H; contradiction|].
    destruct (debug_mode x); simpl.
    - rewrite in_app_iff. simpl. intros [H|[H|[]]]; [contradiction | congruence].
    - destruct (String.eqb _ "dynamic"); simpl; rewrite in_app_iff; simpl.
      + intros [H|[H|[H|[]]]]; [contradiction | discriminate | congruence].
      + intros [H|[H|[]]]; [contradiction | discriminate]. }
  split; [|split].
  - apply Hkey.
  - intros plan. unfold result, calls_of. rewrite load_run. cbv zeta.
    destruct (_create_partitions w df) as [e|out]; [discriminate|].
    destruct (debug_mode w); simpl.
    + intros H. injection H as <-. simpl. split; [|reflexivity].
      apply in_or_app. right. now left.
    + destruct (String.eqb _ "dynamic"); simpl; [|discriminate].
      intros H. injection H as <-. simpl. split; [|reflexivity].
      apply in_or_app. right. right. now left.
  - intros df' sc' w' key key' H H'.
    rewrite (Hkey _ _ _ _ H), (Hkey _ _ _ _ H'). reflexivity.
Qed.

(** ** [validate], step by step *)

Lemma validate_run (feature_set : FeatureSet) (df : DataFrame) (sc : SparkClient)
    (w : HistoricalFeatureStoreWriter) :
  run (validate feature_set df sc) w =
  if debug_mode w then
    let table_name := "historical_feature_store__" +:+ name feature_set in
    (match read_table sc table_name with
     | inl e => inl e
     | inr written => _assert_validation_count w table_name (count written) (count df)
     end,
     {| self := w; calls := [ReadTable table_name] |})
  else
    let table_name := Py.str_of_opt (database w) +:+ "." +:+ name feature_set in
    (match read sc (format_ (db_config w)) (get_options (db_config w) table_name) with
     | inl e => inl e
     | inr written => _assert_validation_count w table_name (count written) (count df)
     end,
     {| self := w;
        calls := [GetOptions table_name;
                  Read (format_ (db_config w)) (get_options (db_config w) table_name)] |}).
Proof.
  unfold run, validate, bind, ret, lift, call, get_self.
  cbn [self calls app]. destruct (debug_mode w); cbn [negb]; cbv zeta.
  - destruct (read_table sc _); reflexivity.
  - destruct (read sc _ _); reflexivity.
Qed.

Lemma assert_validation_count_message (self : HistoricalFeatureStoreWriter)
    (table msg : string) (w d : Z) :
  _assert_validation_count self table w d = inl (Py.AssertionError msg) ->
  msg = validation_message table w d.
Proof.
  unfold _assert_validation_count.
  destruct (lower_bound self w) as [e|lo] eqn:Hlo.
  { destruct (bound_error self w e) as [m ->]; [now left | discriminate]. }
  destruct (upper_bound self w) as [e|hi] eqn:Hhi.
  { destruct (bound_error self w e) as [m ->]; [now right | discriminate]. }
  destruct (Py.le lo (Py.Int d) && Py.le (Py.Int d) hi); [discriminate|].
  intros H. now injection H as <-.
Qed.

(** C6.  In debug mode [validate] reads the written rows with one direct
    table read of ["historical_feature_store__"] followed by the name of the
    feature set, and asks the storage configuration nothing; otherwise it
    asks the storage configuration for the options of
    ["{database}.{name}"] and reads with its format and those options.  The
    counts compared are those of what was read and of the dataframe passed
    in, and the name read from is the table name of a failure message. *)
Theorem validate_reads_from (feature_set : FeatureSet) (df : DataFrame)
    (sc : SparkClient) (w : HistoricalFeatureStoreWriter) :
  (debug_mode w = true ->
   calls_of (validate feature_set df sc) w
   = [ReadTable ("historical_feature_store__" +:+ name feature_set)]
   /\ forall written : DataFrame,
        read_table sc ("historical_feature_store__" +:+ name feature_set) = inr written ->
        result (validate feature_set df sc) w
        = _assert_validation_count w
            ("historical_feature_store__" +:+ name feature_set)
            (count written) (count df)
        /\ forall msg : string,
             result (validate feature_set df sc) w = inl (Py.AssertionError msg) ->
             msg = validation_message
                     ("historical_feature_store__" +:+ name feature_set)
                     (count written) (count df)
             /\ Py.includes msg ("historical_feature_store__" +:+ name feature_set))
  /\ (debug_mode w = false ->
      calls_of (validate feature_set df sc) w
      = [GetOptions (Py.str_of_opt (database w) +:+ "." +:+ name feature_set);
         Read (format_ (db_config w))
              (get_options (db_config w)
                 (Py.str_of_opt (database w) +:+ "." +:+ name feature_set))]
      /\ forall written : DataFrame,
           read sc (format_ (db_config w))
             (get_options (db_config w)
                (Py.str_of_opt (database w) +:+ "." +:+ name feature_set))
           = inr written ->
           result (validate feature_set df sc) w
           = _assert_validation_count w
               (Py.str_of_opt (database w) +:+ "." +:+ name feature_set)
               (count written) (count df)
           /\ forall msg : string,
                result (validate feature_set df sc) w = inl (Py.AssertionError msg) ->
                msg = validation_message
                        (Py.str_of_opt (database w) +:+ "." +:+ name feature_set)
                        (count written) (count df)
                /\ Py.includes msg
                     (Py.str_of_opt (database w) +:+ "." +:+ name feature_set)).
Proof.
  split; intros Hdebug;
    unfold calls_of, result; rewrite validate_run, Hdebug; cbv zeta; simpl;
    (split; [reflexivity|]); intros written ->; (split; [reflexivity|]);
    intros msg Hmsg; apply assert_validation_count_message in Hmsg; subst msg;
    (split; [reflexivity | apply message_carries]).
Qed.

(** C7 (as amended).  The constructor stores the validation threshold it is
    given, whatever its value: there is no range check.  [load] and
    [validate] leave it as it is, so a threshold given in [0,1] stays in
    [0,1] for the life of the writer. *)
Theorem validation_threshold_fixed (cfg : option DbConfig) (db : option string)
    (np : option Z) (t : Py.Num) (debug : bool) (hook : option Hook) :
  validation_threshold (__init__ cfg db np t debug hook) = t
  /\ (forall (feature_set : FeatureSet) (df : DataFrame) (sc : SparkClient)
             (w : HistoricalFeatureStoreWriter),
        validation_threshold (writer_after (load feature_set df sc) w)
        = validation_threshold w
        /\ validation_threshold (writer_after (validate feature_set df sc) w)
           = validation_threshold w)
  /\ (forall (feature_set : FeatureSet) (df : DataFrame) (sc : SparkClient),
        let w := __init__ cfg db np t debug hook in
        in_unit_interval (validation_threshold (writer_after (load feature_set df sc) w))
        = in_unit_interval t
        /\ in_unit_interval
             (validation_threshold (writer_after (validate feature_set df sc) w))
           = in_unit_interval t).
Proof.
  assert (H : forall (feature_set : FeatureSet) (df : DataFrame) (sc : SparkClient)
                (w : HistoricalFeatureStoreWriter),
             validation_threshold (writer_after (load feature_set df sc) w)
             = validation_threshold w
             /\ validation_threshold (writer_after (validate feature_set df sc) w)
                = validation_threshold w).
  { intros feature_set df sc w. split.
    - now rewrite load_writer_after.
    - unfold writer_after. rewrite validate_run. now destruct (debug_mode w). }
  split; [reflexivity|]. split; [exact H|].
  intros feature_set df sc w.
  destruct (H feature_set df sc w) as [-> ->]. now split.
Qed.

(** ** Reusing a writer *)

Lemma assert_validation_count_threshold (w w' : HistoricalFeatureStoreWriter)
    (table : string) (n d : Z) :
  validation_threshold w' = validation_threshold w ->
  _assert_validation_count w' table n d = _assert_validation_count w table n d.
Proof.
  unfold _assert_validation_count, lower_bound, upper_bound. now intros ->.
Qed.

(** What [load] and [validate] return depends on the configuration fields
    of the writer only. *)
Lemma result_same_configuration (feature_set : FeatureSet) (df : DataFrame)
    (sc : SparkClient) (w w' : HistoricalFeatureStoreWriter) :
  debug_mode w' = debug_mode w -> db_config w' = db_config w ->
  database w' = database w -> num_partitions w' = num_partitions w ->
  validation_threshold w' = validation_threshold w ->
  result (load feature_set df sc) w' = result (load feature_set df sc) w
  /\ result (validate feature_set df sc) w' = result (validate feature_set df sc) w.
Proof.
  intros Hdm Hcfg Hdb Hnp Hvt. unfold result. rewrite !load_run, !validate_run.
  cbv zeta. rewrite (create_partitions_num_partitions w w' df Hnp), Hdm, Hcfg, Hdb.
  split.
  - destruct (_create_partitions w df); [reflexivity|].
    destruct (debug_mode w); [reflexivity|].
    destruct (String.eqb _ "dynamic"); reflexivity.
  - destruct (debug_mode w); simpl.
    + destruct (read_table sc _); [reflexivity|].
      now apply assert_validation_count_threshold.
    + destruct (read sc _ _); [reflexivity|].
      now apply assert_validation_count_threshold.
Qed.

(** C8 (as amended).  [load] and [validate] never change the configuration
    of the writer, and [validate] changes nothing at all; so a call on a
    writer that served another feature set before returns or raises what it
    would on the writer as it was.  What a [load] may change is the
    schema-check hook and the list of registered pre-write hooks, nothing
    else; a hook given to the constructor is kept. *)
Theorem load_on_reused_writer (earlier feature_set : FeatureSet)
    (earlier_df df : DataFrame) (earlier_sc sc : SparkClient)
    (w : HistoricalFeatureStoreWriter) :
  let reused := writer_after (load earlier earlier_df earlier_sc) w in
  (result (load feature_set df sc) reused = result (load feature_set df sc) w
   /\ result (validate feature_set df sc) reused
      = result (validate feature_set df sc) w)
  /\ (debug_mode reused = debug_mode w /\ db_config reused = db_config w
      /\ database reused = database w /\ num_partitions reused = num_partitions w
      /\ validation_threshold reused = validation_threshold w)
  /\ writer_after (validate feature_set df sc) w = w
  /\ (forall h : Hook, check_schema w = Some h -> check_schema reused = Some h).
Proof.
  cbv zeta. rewrite load_writer_after. cbv zeta.
  split; [|split; [|split]].
  - apply result_same_configuration; reflexivity.
  - repeat split.
  - unfold writer_after. rewrite validate_run. now destruct (debug_mode w).
  - intros h Hh. simpl. now rewrite Hh.
Qed.

(** C10.  A partition count of [None] or [0] given to the constructor is
    replaced by [DEFAULT_NUM_PARTITIONS], so that the writer holds a zero
    partition count only if that default is zero; a validation threshold of
    [0.0], like any other, is stored as given. *)
Theorem init_falsy_arguments (cfg : option DbConfig) (db : option string)
    (t : Py.Num) (debug : bool) (hook : option Hook) :
  num_partitions (__init__ cfg db None t debug hook) = DEFAULT_NUM_PARTITIONS
  /\ num_partitions (__init__ cfg db (Some 0) t debug hook) = DEFAULT_NUM_PARTITIONS
  /\ (forall np : option Z,
        num_partitions (__init__ cfg db np t debug hook) = 0 ->
        DEFAULT_NUM_PARTITIONS = 0)
  /\ (forall n : Z, n <> 0 ->
        num_partitions (__init__ cfg db (Some n) t debug hook) = n)
  /\ (forall (np : option Z) (s : bool),
        validation_threshold (__init__ cfg db np (Py.Float (S754_zero s)) debug hook)
        = Py.Float (S754_zero s))
  /\ (forall np : option Z,
        validation_threshold (__init__ cfg db np (Py.Int 0) debug hook) = Py.Int 0).
Proof.
  repeat split.
  - intros [[|p|p]|]; simpl; intros H; try discriminate; exact H.
  - intros [|p|p] Hn; [contradiction | reflexivity | reflexivity].
Qed.

(** ** More of [withColumn]: replacing a column *)

Lemma resolver_trans (cs : bool) (a b c : string) :
  resolver cs a b = true -> resolver cs b c = true -> resolver cs a c = true.
Proof.
  unfold resolver. destruct cs; rewrite !String.eqb_eq; congruence.
Qed.

(** A position is among those of a name exactly when the field there answers
    to the name. *)
Lemma positions_from_spec (cs : bool) (c : string) (l : list StructField) (k p : nat) :
  In p (positions_from cs c l k)
  <-> exists f : StructField,
        (k <= p)%nat /\ l !! (p - k)%nat = Some f /\ resolver cs (field_name f) c = true.
Proof.
  revert k. induction l as [|g l IH]; intros k; simpl.
  - split; [intros [] | intros (f & _ & H & _); discriminate].
  - rewrite in_app_iff, IH. split.
    + intros [H | (f & Hk & Hf & Hr)].
      * destruct (resolver cs (field_name g) c) eqn:Hg; simpl in H; [|destruct H].
        destruct H as [<- | []]. exists g. rewrite Nat.sub_diag. auto.
      * exists f. split; [lia|]. split; [|exact Hr].
        replace (p - k)%nat with (S (p - S k)) by lia. exact Hf.
    + intros (f & Hk & Hf & Hr). destruct (Nat.eq_dec p k) as [-> | Hne].
      * rewrite Nat.sub_diag in Hf. simpl in Hf. injection Hf as ->.
        left. rewrite Hr. now left.
      * right. exists f. split; [lia|]. split; [|exact Hr].
        replace (p - k)%nat with (S (p - S k)) in Hf by lia. exact Hf.
Qed.

Lemma positions_spec (df : DataFrame) (c : string) (p : nat) :
  In p (positions df c)
  <-> exists f : StructField,
        schema df !! p = Some f /\ resolver (caseSensitive df) (field_name f) c = true.
Proof.
  unfold positions. rewrite positions_from_spec. rewrite Nat.sub_0_r.
  split; [intros (f & _ & H); eauto | intros (f & H); exists f; split; [lia | exact H]].
Qed.

(** A column cannot answer to two names that do not answer to each other. *)
Lemma positions_disjoint (df : DataFrame) (a b : string) (p : nat) :
  resolver (caseSensitive df) a b = false ->
  In p (positions df a) -> ~ In p (positions df b).
Proof.
  intros Hab Ha Hb. apply positions_spec in Ha as (f & Hf & Hfa).
  apply positions_spec in Hb as (g & Hg & Hgb).
  rewrite Hf in Hg. injection Hg as <-.
  rewrite resolver_sym in Hfa.
  now rewrite (resolver_trans _ _ _ _ Hfa Hgb) in Hab.
Qed.

Lemma positions_lt (df : DataFrame) (c : string) (p : nat) :
  In p (positions df c) -> (p < length (schema df))%nat.
Proof. intros H. apply positions_from_bound in H. lia. Qed.

(** *** [put_column], cell by cell *)

Lemma put_column_length {A : Type} (hits : list nat) (x : A) (l : list A) :
  length (put_column hits x l)
  = match hits with [] => S (length l) | _ => length l end.
Proof.
  unfold put_column. destruct hits.
  - rewrite length_app. simpl. lia.
  - apply length_imap.
Qed.

Lemma put_column_other {A : Type} (hits : list nat) (x : A) (l : list A) (p : nat) (d : A) :
  ~ In p hits -> (p < length l)%nat ->
  nth p (put_column hits x l) d = nth p l d.
Proof.
  intros Hp Hlt. unfold put_column. destruct hits as [|h hits].
  - now apply app_nth1.
  - rewrite !nth_lookup, list_lookup_imap.
    destruct (l !! p) as [a|]; simpl; [|reflexivity].
    rewrite bool_decide_false; [reflexivity|].
    intros Hin. apply Hp. now apply list_elem_of_In.
Qed.

Lemma put_column_hit {A : Type} (hits : list nat) (x : A) (l : list A) (p : nat) (d : A) :
  In p hits -> (p < length l)%nat ->
  nth p (put_column hits x l) d = x.
Proof.
  intros Hp Hlt. unfold put_column. destruct hits as [|h hits]; [destruct Hp|].
  rewrite nth_lookup, list_lookup_imap.
  destruct (lookup_lt_is_Some_2 l p Hlt) as [a ->]. simpl.
  rewrite bool_decide_true; [reflexivity | now apply list_elem_of_In].
Qed.

Lemma put_column_fresh {A : Type} (x : A) (l : list A) (d : A) :
  nth (length l) (put_column [] x l) d = x.
Proof. unfold put_column. rewrite app_nth2, Nat.sub_diag by lia. reflexivity. Qed.

Lemma resolver_congr (cs : bool) (a b c : string) :
  resolver cs a b = true -> resolver cs a c = resolver cs b c.
Proof.
  intros Hab. destruct (resolver cs b c) eqn:Hbc.
  - now apply (resolver_trans cs a b c).
  - apply not_true_is_false. intros Hac. rewrite resolver_sym in Hab.
    now rewrite (resolver_trans cs b a c Hab Hac) in Hbc.
Qed.

(** Replacing the columns that answer to a name by one of that name leaves
    every name with the positions it had. *)
Lemma positions_from_replace (cs : bool) (n m : string) (x : StructField)
    (hits : list nat) (l : list StructField) (k : nat) :
  field_name x = n ->
  (forall (j : nat) (f : StructField),
     l !! j = Some f ->
     In (k + j)%nat hits -> resolver cs (field_name f) n = true) ->
  positions_from cs m
    (imap (fun i a => if bool_decide ((k + i)%nat ∈ hits) then x else a) l) k
  = positions_from cs m l k.
Proof.
  intros Hx. revert k. induction l as [|f l IH]; intros k Hhits; [reflexivity|].
  rewrite imap_cons. cbn [positions_from]. f_equal.
  - rewrite Nat.add_0_r. destruct (bool_decide (k ∈ hits)) eqn:Hk; [|reflexivity].
    apply bool_decide_eq_true in Hk. apply list_elem_of_In in Hk.
    rewrite Hx, (resolver_congr cs (field_name f) n m); [reflexivity|].
    apply (Hhits 0%nat f eq_refl). now rewrite Nat.add_0_r.
  - rewrite <- (IH (S k)).
    + f_equal. apply imap_ext. intros i a _. simpl.
      now replace (k + S i)%nat with (S (k + i)) by lia.
    + intros j g Hg Hin. apply (Hhits (S j) g Hg).
      now replace (k + S j)%nat with (S k + j)%nat by lia.
Qed.

Lemma positions_withColumn_replace (df : DataFrame) (colName c : string) (col : Column) :
  positions df colName <> [] ->
  positions (withColumn_resolved df colName col) c = positions df c.
Proof.
  intros Hne. unfold positions at 1, withColumn_resolved. cbn [schema caseSensitive].
  unfold put_column. destruct (positions df colName) as [|h hits] eqn:Hhits;
    [contradiction|].
  rewrite <- Hhits.
  rewrite (positions_from_replace (caseSensitive df) colName c _ _ (schema df) 0);
    [reflexivity | reflexivity |].
  intros j f Hf Hin. simpl in Hin. apply positions_spec in Hin as (g & Hg & Hr).
  rewrite Hf in Hg. now injection Hg as <-.
Qed.

(** [withColumn] and the positions of the names, in both cases. *)
Lemma positions_withColumn (df : DataFrame) (colName : string) (col : Column) :
  (forall c : string,
     resolver (caseSensitive df) colName c = false ->
     positions (withColumn_resolved df colName col) c = positions df c)
  /\ positions (withColumn_resolved df colName col) colName
     = match positions df colName with
       | [] => [length (schema df)]
       | hits => hits
       end.
Proof.
  destruct (positions df colName) as [|h hits] eqn:Hhits.
  - split.
    + intros c Hc. rewrite positions_withColumn_fresh, Hc by exact Hhits.
      apply app_nil_r.
    + rewrite positions_withColumn_fresh, Hhits, resolver_refl by exact Hhits.
      reflexivity.
  - assert (Hne : positions df colName <> []) by now rewrite Hhits.
    split.
    + intros c _. now apply positions_withColumn_replace.
    + rewrite positions_withColumn_replace by exact Hne. exact Hhits.
Qed.

Lemma withColumn_rows (df : DataFrame) (colName : string) (col : Column) :
  rows (withColumn_resolved df colName col)
  = map (fun r => put_column (positions df colName) (col_eval col r) r) (rows df).
Proof. unfold rows, withColumn_resolved. simpl. apply rows_map. Qed.

Lemma withColumn_schema_length (df : DataFrame) (colName : string) (col : Column) :
  length (schema (withColumn_resolved df colName col))
  = match positions df colName with
    | [] => S (length (schema df))
    | _ => length (schema df)
    end.
Proof. unfold withColumn_resolved. simpl. apply put_column_length. Qed.

Lemma withColumn_well_formed (df : DataFrame) (colName : string) (col : Column) :
  well_formed df -> well_formed (withColumn_resolved df colName col).
Proof.
  unfold well_formed. rewrite withColumn_rows, withColumn_schema_length, Forall_map.
  intros H. rewrite Forall_forall in *. intros r Hr.
  rewrite put_column_length, (H r Hr). reflexivity.
Qed.

(** The cells of a row after [withColumn]: the new value wherever the name
    now stands, the old value everywhere else. *)
Lemma withColumn_cells (df : DataFrame) (colName : string) (col : Column)
    (v : Value) (r : Row) (p : nat) :
  length r = length (schema df) ->
  (In p (positions (withColumn_resolved df colName col) colName) ->
   nth p (put_column (positions df colName) v r) Null = v)
  /\ (~ In p (positions (withColumn_resolved df colName col) colName) ->
      (p < length (schema df))%nat ->
      nth p (put_column (positions df colName) v r) Null = nth p r Null).
Proof.
  intros Hlen. destruct (positions_withColumn df colName col) as [_ Hsame].
  rewrite Hsame. destruct (positions df colName) as [|h hits] eqn:Hhits.
  - split.
    + intros [<- | []]. rewrite <- Hlen. apply put_column_fresh.
    + intros _ Hp. apply put_column_other; [intros [] | lia].
  - split.
    + intros Hp. apply put_column_hit; [exact Hp|].
      rewrite Hlen. apply (positions_lt df colName). now rewrite Hhits.
    + intros Hp Hlt. apply put_column_other; [exact Hp | lia].
Qed.

Lemma withColumn_fields (df : DataFrame) (colName : string) (col : Column)
    (p : nat) (d : StructField) :
  (In p (positions (withColumn_resolved df colName col) colName) ->
   nth p (schema (withColumn_resolved df colName col)) d
   = {| field_name := colName; dataType := col_type col |})
  /\ (~ In p (positions (withColumn_resolved df colName col) colName) ->
      (p < length (schema df))%nat ->
      nth p (schema (withColumn_resolved df colName col)) d = nth p (schema df) d).
Proof.
  destruct (positions_withColumn df colName col) as [_ Hsame]. rewrite Hsame.
  unfold withColumn_resolved. cbn [schema].
  destruct (positions df colName) as [|h hits] eqn:Hhits.
  - split.
    + intros [<- | []]. now rewrite put_column_fresh.
    + intros _ Hp. rewrite put_column_other; [reflexivity | intros [] | lia].
  - split.
    + intros Hp. rewrite put_column_hit; [reflexivity | exact Hp |].
      apply (positions_lt df colName). now rewrite Hhits.
    + intros Hp Hlt. rewrite put_column_other; [reflexivity | exact Hp | lia].
Qed.

(** One partition column written: what [withColumn] with a function of the
    event time does to a dataframe that has the event time in column [i]. *)
Lemma partition_column_step (df : DataFrame) (n : string) (f : Value -> Value)
    (c : Column) (i : nat) :
  well_formed df ->
  positions df TIMESTAMP_COLUMN = [i] ->
  resolver (caseSensitive df) n TIMESTAMP_COLUMN = false ->
  (forall r : Row, col_eval c r = f (nth i r Null)) ->
  col_type c = IntegerType ->
  well_formed (withColumn_resolved df n c)
  /\ positions (withColumn_resolved df n c) TIMESTAMP_COLUMN = [i]
  /\ (length (schema df) <= length (schema (withColumn_resolved df n c)))%nat
  /\ (forall m : string,
        resolver (caseSensitive df) n m = false ->
        positions (withColumn_resolved df n c) m = positions df m)
  /\ rows (withColumn_resolved df n c)
     = map (fun r => put_column (positions df n) (col_eval c r) r) (rows df)
  /\ (forall r : Row, In r (rows df) ->
        nth i (put_column (positions df n) (col_eval c r) r) Null = nth i r Null
        /\ (forall p : nat, In p (positions (withColumn_resolved df n c) n) ->
              nth p (put_column (positions df n) (col_eval c r) r) Null
              = f (nth i r Null))
        /\ (forall p : nat, ~ In p (positions (withColumn_resolved df n c) n) ->
              (p < length (schema df))%nat ->
              nth p (put_column (positions df n) (col_eval c r) r) Null = nth p r Null))
  /\ (forall (p : nat) (d : StructField),
        (In p (positions (withColumn_resolved df n c) n) ->
         nth p (schema (withColumn_resolved df n c)) d
         = {| field_name := n; dataType := IntegerType |})
        /\ (~ In p (positions (withColumn_resolved df n c) n) ->
            (p < length (schema df))%nat ->
            nth p (schema (withColumn_resolved df n c)) d = nth p (schema df) d)).
Proof.
  intros Hwf Hts Hnts Hc Hty.
  destruct (positions_withColumn df n c) as [Hother _].
  assert (Hts' : positions (withColumn_resolved df n c) TIMESTAMP_COLUMN = [i])
    by now rewrite Hother.
  assert (Hi : (i < length (schema df))%nat)
    by (apply (positions_lt df TIMESTAMP_COLUMN); rewrite Hts; now left).
  assert (Hni : ~ In i (positions (withColumn_resolved df n c) n)).
  { apply (positions_disjoint (withColumn_resolved df n c) TIMESTAMP_COLUMN n).
    - now rewrite resolver_sym.
    - rewrite Hts'. now left. }
  split; [now apply withColumn_well_formed|].
  split; [exact Hts'|].
  split; [rewrite withColumn_schema_length; destruct (positions df n); lia|].
  split; [exact Hother|].
  split; [apply withColumn_rows|].
  split.
  - intros r Hr.
    assert (Hlen : length r = length (schema df)).
    { unfold well_formed in Hwf. rewrite Forall_forall in Hwf.
      apply Hwf. now apply list_elem_of_In. }
    destruct (withColumn_cells df n c (col_eval c r) r i Hlen) as [_ Hi'].
    split; [now apply Hi'|]. split.
    + intros p Hp.
      destruct (withColumn_cells df n c (col_eval c r) r p Hlen) as [Hhit _].
      rewrite (Hhit Hp). apply Hc.
    + intros p Hp Hlt.
      destruct (withColumn_cells df n c (col_eval c r) r p Hlen) as [_ Hkeep].
      now apply Hkeep.
  - intros p d. rewrite <- Hty. apply withColumn_fields.
Qed.

Lemma getitem_inv (df : DataFrame) (c : string) (col : Column) :
  getitem df c = inr col ->
  exists i : nat, positions df c = [i] /\ forall r : Row, col_eval col r = nth i r Null.
Proof.
  unfold getitem. destruct (positions df c) as [|i [|j l]]; intros H;
    try discriminate.
  injection H as <-. now exists i.
Qed.

Lemma getitem_inv_typed (df : DataFrame) (c : string) (col : Column) :
  getitem df c = inr col ->
  exists i : nat,
    positions df c = [i]
    /\ (forall r : Row, col_eval col r = nth i r Null)
    /\ col_type col = type_at df i
    /\ col_mismatch col = None.
Proof.
  unfold getitem. destruct (positions df c) as [|i [|j l]]; intros H;
    try discriminate.
  injection H as <-. exists i. repeat split.
Qed.

Lemma date_mismatch_none (function : string) (c : Column) :
  date_mismatch function c = None ->
  col_mismatch c = None /\ date_like (col_type c) = true.
Proof.
  unfold date_mismatch. destruct (col_mismatch c); [discriminate|].
  destruct (date_like (col_type c)); [now split | discriminate].
Qed.

Lemma key_columns_inv (df : DataFrame) (cols : list string) (keys : list Column) :
  key_columns df cols = inr keys ->
  forall c : string, In c cols -> exists j : nat, positions df c = [j].
Proof.
  revert keys. induction cols as [|c cols IH]; intros keys H x Hx; [destruct Hx|].
  simpl in H. destruct (getitem df c) as [e|k] eqn:Hc.
  { destruct (key_columns df cols); discriminate. }
  destruct (key_columns df cols) as [e|ks]; [discriminate|].
  destruct Hx as [<- | Hx].
  - apply getitem_inv in Hc as (j & Hj & _). now exists j.
  - now apply (IH ks).
Qed.

Lemma repartition_inv (df out : DataFrame) (n : Z) (cols : list string) :
  repartition df n cols = inr out ->
  0 < n
  /\ (forall c : string, positions out c = positions df c)
  /\ (forall c : string, In c cols -> exists j : nat, positions df c = [j])
  /\ schema out = schema df /\ rows out ≡ₚ rows df.
Proof.
  intros H. destruct (repartition_rows df out n cols H) as (Hs & Hc & Hr).
  unfold repartition in H. destruct (n <=? 0) eqn:Hn; [discriminate|].
  apply Z.leb_gt in Hn.
  destruct (key_columns df cols) as [e|keys] eqn:Hk; [discriminate|].
  split; [exact Hn|]. split; [|split; [|split]].
  - intros c. unfold positions. now rewrite Hs, Hc.
  - now apply (key_columns_inv df cols keys).
  - exact Hs.
  - exact Hr.
Qed.

Lemma distinct_names_last (cs : bool) (a b c d : string) :
  distinct_names cs [a; b; c; d] = true -> resolver cs d a = false.
Proof.
  simpl. rewrite !andb_true_r, !andb_true_iff, !negb_true_iff.
  intros ((_ & _ & Had) & _). now rewrite resolver_sym.
Qed.

(** The dataframe [_create_partitions] hands to the repartition. *)
Lemma create_partitions_written (w : HistoricalFeatureStoreWriter)
    (df out : DataFrame) :
  distinct_names (caseSensitive df)
    [TIMESTAMP_COLUMN; PARTITION_YEAR; PARTITION_MONTH; PARTITION_DAY] = true ->
  well_formed df ->
  _create_partitions w df = inr out ->
  exists (i jy jm jd : nat) (g : Row -> Row),
    positions df TIMESTAMP_COLUMN = [i]
    /\ (date_like (type_at df i) = true /\ type_at out i = type_at df i)
    /\ (positions out TIMESTAMP_COLUMN = [i] /\ positions out PARTITION_YEAR = [jy]
        /\ positions out PARTITION_MONTH = [jm] /\ positions out PARTITION_DAY = [jd])
    /\ (forall d : StructField,
          nth jy (schema out) d
          = {| field_name := PARTITION_YEAR; dataType := IntegerType |}
          /\ nth jm (schema out) d
             = {| field_name := PARTITION_MONTH; dataType := IntegerType |}
          /\ nth jd (schema out) d
             = {| field_name := PARTITION_DAY; dataType := IntegerType |}
          /\ forall p : nat,
               (p < length (schema df))%nat -> p <> jy -> p <> jm -> p <> jd ->
               nth p (schema out) d = nth p (schema df) d)
    /\ well_formed out
    /\ rows out ≡ₚ map g (rows df)
    /\ forall r : Row, In r (rows df) ->
         nth i (g r) Null = nth i r Null
         /\ nth jy (g r) Null = year_of (nth i r Null)
         /\ nth jm (g r) Null = month_of (nth i r Null)
         /\ nth jd (g r) Null = dayofmonth_of (nth i r Null)
         /\ forall p : nat,
              (p < length (schema df))%nat -> p <> jy -> p <> jm -> p <> jd ->
              nth p (g r) Null = nth p r Null.
Proof.
  intros Hdist Hwf. pose proof (distinct_names_last _ _ _ _ _ Hdist) as Hdt.
  apply distinct_names_four in Hdist
    as (Hyt & Hmt & Hym & Hyd & Hmd & Hmy & Hdy & Hdm).
  unfold _create_partitions.
  destruct (getitem df TIMESTAMP_COLUMN) as [e|c0] eqn:H0; [discriminate|].
  apply getitem_inv_typed in H0 as (i & Hts & Hc0 & Ht0 & Hm0).
  destruct (withColumn df PARTITION_YEAR (year c0)) as [e|df1'] eqn:W1; [discriminate|].
  apply withColumn_inv in W1 as [M1 ->].
  apply date_mismatch_none in M1 as [_ Hdate]. rewrite Ht0 in Hdate.
  (* year *)
  destruct (partition_column_step df PARTITION_YEAR year_of (year c0) i Hwf Hts Hyt)
    as (Hwf1 & Hts1 & Hlen1 & Hpos1 & Hrows1 & Hcell1 & Hty1);
    [intros r; simpl; now rewrite Hc0 | reflexivity |].
  set (df1 := withColumn_resolved df PARTITION_YEAR (year c0)) in *.
  destruct (getitem_unique df1 _ i Hts1) as (c1 & -> & Hc1).
  destruct (withColumn df1 PARTITION_MONTH (month c1)) as [e|df2'] eqn:W2; [discriminate|].
  apply withColumn_inv in W2 as [_ ->].
  (* month *)
  destruct (partition_column_step df1 PARTITION_MONTH month_of (month c1) i Hwf1 Hts1)
    as (Hwf2 & Hts2 & Hlen2 & Hpos2 & Hrows2 & Hcell2 & Hty2);
    [exact Hmt | intros r; simpl; now rewrite Hc1 | reflexivity |].
  set (df2 := withColumn_resolved df1 PARTITION_MONTH (month c1)) in *.
  destruct (getitem_unique df2 _ i Hts2) as (c2 & -> & Hc2).
  destruct (withColumn df2 PARTITION_DAY (dayofmonth c2)) as [e|df3'] eqn:W3; [discriminate|].
  apply withColumn_inv in W3 as [_ ->].
  (* day *)
  destruct (partition_column_step df2 PARTITION_DAY dayofmonth_of (dayofmonth c2) i
              Hwf2 Hts2)
    as (Hwf3 & Hts3 & Hlen3 & Hpos3 & Hrows3 & Hcell3 & Hty3);
    [exact Hdt | intros r; simpl; now rewrite Hc2 | reflexivity |].
  set (df3 := withColumn_resolved df2 PARTITION_DAY (dayofmonth c2)) in *.
  change (caseSensitive df1) with (caseSensitive df) in *.
  change (caseSensitive df2) with (caseSensitive df) in *.
  (* the repartition *)
  intros Hout. unfold repartition_df in Hout.
  apply repartition_inv in Hout as (_ & Hsame & Hkeys & Hschema & Hperm).
  destruct (Hkeys PARTITION_YEAR) as [jy Hjy]; [now left|].
  destruct (Hkeys PARTITION_MONTH) as [jm Hjm]; [right; now left|].
  destruct (Hkeys PARTITION_DAY) as [jd Hjd]; [right; right; now left|].
  (* where the three names stand, step by step *)
  assert (Hy2 : positions df2 PARTITION_YEAR = [jy]) by now rewrite <- Hpos3.
  assert (Hy1 : positions df1 PARTITION_YEAR = [jy]) by now rewrite <- Hpos2.
  assert (Hm2 : positions df2 PARTITION_MONTH = [jm]) by now rewrite <- Hpos3.
  assert (Hlt : forall (d : DataFrame) (c : string) (j : nat),
             positions d c = [j] -> (j < length (schema d))%nat).
  { intros d c j Hj. apply (positions_lt d c). rewrite Hj. now left. }
  assert (Hne : forall (d : DataFrame) (a b : string) (ja jb : nat),
             resolver (caseSensitive d) a b = false ->
             positions d a = [ja] -> positions d b = [jb] -> ja <> jb).
  { intros d a b ja jb Hab Ha Hb ->.
    apply (positions_disjoint d a b jb Hab); [rewrite Ha | rewrite Hb]; now left. }
  assert (Hym3 : jy <> jm) by (apply (Hne df3 PARTITION_YEAR PARTITION_MONTH); assumption).
  assert (Hyd3 : jy <> jd) by (apply (Hne df3 PARTITION_YEAR PARTITION_DAY); assumption).
  assert (Hmd3 : jm <> jd) by (apply (Hne df3 PARTITION_MONTH PARTITION_DAY); assumption).
  exists i, jy, jm, jd.
  exists (fun r =>
            let r1 := put_column (positions df PARTITION_YEAR) (col_eval (year c0) r) r in
            let r2 := put_column (positions df1 PARTITION_MONTH)
                        (col_eval (month c1) r1) r1 in
            put_column (positions df2 PARTITION_DAY) (col_eval (dayofmonth c2) r2) r2).
  split; [exact Hts|]. split.
  { split; [exact Hdate|].
    assert (Hone : forall a b : nat, a <> b -> ~ In a [b])
      by (intros a b Hab [H|[]]; congruence).
    assert (Hiy : i <> jy)
      by (apply (Hne df3 TIMESTAMP_COLUMN PARTITION_YEAR);
          [rewrite resolver_sym | |]; assumption).
    assert (Him : i <> jm)
      by (apply (Hne df3 TIMESTAMP_COLUMN PARTITION_MONTH);
          [rewrite resolver_sym | |]; assumption).
    assert (Hid : i <> jd)
      by (apply (Hne df3 TIMESTAMP_COLUMN PARTITION_DAY);
          [rewrite resolver_sym | |]; assumption).
    pose proof (Hlt df TIMESTAMP_COLUMN i Hts) as Hi.
    pose (d0 := {| field_name := ""; dataType := StringType |}).
    unfold type_at. rewrite Hschema.
    change StringType with (dataType d0). rewrite !map_nth. f_equal.
    destruct (Hty3 i d0) as [_ ->]; [| rewrite Hjd; now apply Hone | lia].
    destruct (Hty2 i d0) as [_ ->]; [| rewrite Hm2; now apply Hone | lia].
    apply Hty1; [rewrite Hy1; now apply Hone | exact Hi]. }
  split.
  { rewrite !Hsame. auto. }
  split.
  { assert (Hone : forall a b : nat, a <> b -> ~ In a [b])
      by (intros a b Hab [H|[]]; congruence).
    intros d. rewrite Hschema. split; [|split; [|split]].
    - destruct (Hty3 jy d) as [_ ->];
        [| rewrite Hjd; now apply Hone | now apply (Hlt df2 PARTITION_YEAR)].
      destruct (Hty2 jy d) as [_ ->];
        [| rewrite Hm2; now apply Hone | now apply (Hlt df1 PARTITION_YEAR)].
      apply Hty1. rewrite Hy1. now left.
    - destruct (Hty3 jm d) as [_ ->];
        [| rewrite Hjd; now apply Hone | now apply (Hlt df2 PARTITION_MONTH)].
      apply Hty2. rewrite Hm2. now left.
    - apply Hty3. rewrite Hjd. now left.
    - intros p Hp Hpy Hpm Hpd.
      destruct (Hty3 p d) as [_ ->]; [| rewrite Hjd; now apply Hone | lia].
      destruct (Hty2 p d) as [_ ->]; [| rewrite Hm2; now apply Hone | lia].
      apply Hty1; [rewrite Hy1; now apply Hone | exact Hp]. }
  split.
  { unfold well_formed in *. now rewrite Hschema, Hperm. }
  split.
  { now rewrite Hperm, Hrows3, Hrows2, Hrows1, !map_map. }
  intros r Hr. cbv zeta.
  set (r1 := put_column (positions df PARTITION_YEAR) (col_eval (year c0) r) r).
  set (r2 := put_column (positions df1 PARTITION_MONTH) (col_eval (month c1) r1) r1).
  assert (Hr1 : In r1 (rows df1))
    by (rewrite Hrows1; apply (in_map (fun x => put_column _ (col_eval (year c0) x) x));
        exact Hr).
  assert (Hr2 : In r2 (rows df2))
    by (rewrite Hrows2; apply (in_map (fun x => put_column _ (col_eval (month c1) x) x));
        exact Hr1).
  destruct (Hcell1 r Hr) as (Hi1 & Hhit1 & Hkeep1). fold r1 in Hi1, Hhit1, Hkeep1.
  destruct (Hcell2 r1 Hr1) as (Hi2 & Hhit2 & Hkeep2). fold r2 in Hi2, Hhit2, Hkeep2.
  destruct (Hcell3 r2 Hr2) as (Hi3 & Hhit3 & Hkeep3).
  rewrite Hy1 in Hhit1, Hkeep1. rewrite Hm2 in Hhit2, Hkeep2. rewrite Hjd in Hhit3, Hkeep3.
  assert (Hone : forall a b : nat, a <> b -> ~ In a [b]) by (intros a b Hab [H|[]]; congruence).
  split; [now rewrite Hi3, Hi2, Hi1|]. split; [|split; [|split]].
  - rewrite Hkeep3, Hkeep2 by
        (try (apply Hone; congruence);
         first [now apply (Hlt df2 PARTITION_YEAR) | now apply (Hlt df1 PARTITION_YEAR)]).
    apply Hhit1. now left.
  - rewrite Hkeep3 by
        (try (apply Hone; congruence); now apply (Hlt df2 PARTITION_MONTH)).
    rewrite Hhit2 by now left. now rewrite Hi1.
  - rewrite Hhit3 by now left. now rewrite Hi2, Hi1.
  - intros p Hp Hpy Hpm Hpd.
    rewrite Hkeep3, Hkeep2, Hkeep1; try (apply Hone; congruence); try lia.
    reflexivity.
Qed.

(** ** What [load] hands to the write, in general *)

Lemma load_result_inv (feature_set : FeatureSet) (df : DataFrame) (sc : SparkClient)
    (w : HistoricalFeatureStoreWriter) (plan : WritePlan) :
  result (load feature_set df sc) w = inr plan ->
  _create_partitions w df = inr (load_df plan).
Proof.
  unfold result. rewrite load_run. cbv zeta.
  destruct (_create_partitions w df) as [e|out]; [discriminate|].
  destruct (debug_mode w).
  - cbn [fst]. intros H. now injection H as <-.
  - destruct (String.eqb _ "dynamic"); [|discriminate].
    cbn [fst]. intros H. now injection H as <-.
Qed.

Lemma nth_lookup_field (l : list StructField) (j : nat) (x : StructField) :
  (j < length l)%nat -> (forall d : StructField, nth j l d = x) -> l !! j = Some x.
Proof.
  intros Hlt Hn. destruct (lookup_lt_is_Some_2 _ _ Hlt) as [y Hy].
  rewrite Hy. f_equal. rewrite <- (Hn y). symmetry.
  now apply nth_lookup_Some with (d := y).
Qed.

Lemma create_partitions_consistent (w : HistoricalFeatureStoreWriter)
    (df out : DataFrame) :
  distinct_names (caseSensitive df)
    [TIMESTAMP_COLUMN; PARTITION_YEAR; PARTITION_MONTH; PARTITION_DAY] = true ->
  well_formed df ->
  _create_partitions w df = inr out ->
  exists i jy jm jd : nat,
    positions out TIMESTAMP_COLUMN = [i]
    /\ positions out PARTITION_YEAR = [jy]
    /\ positions out PARTITION_MONTH = [jm]
    /\ positions out PARTITION_DAY = [jd]
    /\ schema out !! jy = Some {| field_name := PARTITION_YEAR; dataType := IntegerType |}
    /\ schema out !! jm = Some {| field_name := PARTITION_MONTH; dataType := IntegerType |}
    /\ schema out !! jd = Some {| field_name := PARTITION_DAY; dataType := IntegerType |}
    /\ (well_formed out /\ date_like (type_at out i) = true)
    /\ Forall (fun r : Row =>
                 nth jy r Null = year_of (nth i r Null)
                 /\ nth jm r Null = month_of (nth i r Null)
                 /\ nth jd r Null = dayofmonth_of (nth i r Null))
              (rows out).
Proof.
  intros Hd Hwf Hres.
  destruct (create_partitions_written w df out Hd Hwf Hres)
    as (i & jy & jm & jd & g & _ & (Hdate & Htype) & (Hts & Hy & Hm & Hday)
        & Hf & Hwf' & Hperm & Hg).
  exists i, jy, jm, jd.
  assert (Hlt : forall (c : string) (j : nat),
             positions out c = [j] -> (j < length (schema out))%nat).
  { intros c j Hp. apply (positions_lt _ c). rewrite Hp. now left. }
  split; [exact Hts|]. split; [exact Hy|]. split; [exact Hm|]. split; [exact Hday|].
  split; [|split; [|split; [|split; [split; [exact Hwf' | now rewrite Htype]|]]]].
  - apply nth_lookup_field; [now apply (Hlt PARTITION_YEAR) | intros d; apply (Hf d)].
  - apply nth_lookup_field; [now apply (Hlt PARTITION_MONTH) | intros d; apply (Hf d)].
  - apply nth_lookup_field; [now apply (Hlt PARTITION_DAY) | intros d; apply (Hf d)].
  - rewrite Forall_forall. intros r' Hr'.
    assert (Hin : In r' (map g (rows df))).
    { apply (Permutation_in _ Hperm). now apply list_elem_of_In. }
    apply in_map_iff in Hin. destruct Hin as (r & <- & Hr).
    destruct (Hg r Hr) as (Hi & Hyv & Hmv & Hdv & _).
    rewrite Hi. repeat split; assumption.
Qed.

(** X1.  Whether the input already had columns answering to the partition
    names or not, in the dataframe of every plan [load] returns each of the
    three partition names resolves to exactly one column, that column is an
    integer column spelled as the constant, and in every row it holds the
    year, month or day of the event time of that same row. *)
Theorem load_partition_columns_consistent (feature_set : FeatureSet) (df : DataFrame)
    (sc : SparkClient) (w : HistoricalFeatureStoreWriter) (plan : WritePlan) :
  distinct_names (caseSensitive df)
    [TIMESTAMP_COLUMN; PARTITION_YEAR; PARTITION_MONTH; PARTITION_DAY] = true ->
  well_formed df ->
  result (load feature_set df sc) w = inr plan ->
  exists i jy jm jd : nat,
    positions (load_df plan) TIMESTAMP_COLUMN = [i]
    /\ positions (load_df plan) PARTITION_YEAR = [jy]
    /\ positions (load_df plan) PARTITION_MONTH = [jm]
    /\ positions (load_df plan) PARTITION_DAY = [jd]
    /\ schema (load_df plan) !! jy
       = Some {| field_name := PARTITION_YEAR; dataType := IntegerType |}
    /\ schema (load_df plan) !! jm
       = Some {| field_name := PARTITION_MONTH; dataType := IntegerType |}
    /\ schema (load_df plan) !! jd
       = Some {| field_name := PARTITION_DAY; dataType := IntegerType |}
    /\ Forall (fun r : Row =>
                 nth jy r Null = year_of (nth i r Null)
                 /\ nth jm r Null = month_of (nth i r Null)
                 /\ nth jd r Null = dayofmonth_of (nth i r Null))
              (rows (load_df plan)).
Proof.
  intros Hd Hwf Hres. apply load_result_inv in Hres.
  destruct (create_partitions_consistent w df (load_df plan) Hd Hwf Hres)
    as (i & jy & jm & jd & Hts & Hy & Hm & Hday & Hfy & Hfm & Hfd & _ & Hrows).
  exists i, jy, jm, jd. repeat split; assumption.
Qed.

(** X2.  The partition columns are all [load] touches: every other column of
    the input is found at the same place in the output, with the same header,
    and each output row is an input row whose cells outside the three
    partition columns are unchanged; no row is dropped or duplicated. *)
Theorem load_keeps_other_columns (feature_set : FeatureSet) (df : DataFrame)
    (sc : SparkClient) (w : HistoricalFeatureStoreWriter) (plan : WritePlan) :
  distinct_names (caseSensitive df)
    [TIMESTAMP_COLUMN; PARTITION_YEAR; PARTITION_MONTH; PARTITION_DAY] = true ->
  well_formed df ->
  result (load feature_set df sc) w = inr plan ->
  exists (jy jm jd : nat) (g : Row -> Row),
    positions (load_df plan) PARTITION_YEAR = [jy]
    /\ positions (load_df plan) PARTITION_MONTH = [jm]
    /\ positions (load_df plan) PARTITION_DAY = [jd]
    /\ rows (load_df plan) ≡ₚ map g (rows df)
    /\ forall p : nat,
         (p < length (schema df))%nat -> p <> jy -> p <> jm -> p <> jd ->
         schema (load_df plan) !! p = schema df !! p
         /\ forall r : Row, In r (rows df) -> nth p (g r) Null = nth p r Null.
Proof.
  intros Hd Hwf Hres. apply load_result_inv in Hres.
  destruct (create_partitions_written w df (load_df plan) Hd Hwf Hres)
    as (i & jy & jm & jd & g & _ & _ & (Hts & Hy & Hm & Hday) & Hf & _ & Hperm & Hg).
  exists jy, jm, jd, g.
  split; [exact Hy|]. split; [exact Hm|]. split; [exact Hday|]. split; [exact Hperm|].
  intros p Hp Hpy Hpm Hpd. split.
  - destruct (lookup_lt_is_Some_2 _ _ Hp) as [x Hx]. rewrite Hx.
    pose (d := {| field_name := String "x" (field_name x); dataType := dataType x |}).
    destruct (Hf d) as (_ & _ & _ & Hother).
    specialize (Hother p Hp Hpy Hpm Hpd).
    rewrite (nth_lookup_Some _ _ d _ Hx) in Hother.
    destruct (schema (load_df plan) !! p) as [y|] eqn:Hy'.
    + rewrite (nth_lookup_Some _ _ d _ Hy') in Hother. now subst.
    + exfalso. rewrite nth_overflow in Hother by now apply lookup_ge_None_1.
      apply (f_equal (fun f => String.length (field_name f))) in Hother.
      cbn in Hother. lia.
  - intros r Hr. now apply (Hg r Hr).
Qed.

(** *** The rows are only relabelled, never filtered *)

Lemma create_partitions_count (w : HistoricalFeatureStoreWriter) (df out : DataFrame) :
  _create_partitions w df = inr out -> count out = count df.
Proof.
  unfold _create_partitions, repartition_df.
  repeat lazymatch goal with
         | |- match getitem ?d ?c with _ => _ end = _ -> _ =>
             destruct (getitem d c); [discriminate | cbv zeta]
         | |- match withColumn ?d ?c ?col with _ => _ end = _ -> _ =>
             let W := fresh "W" in
             destruct (withColumn d c col) eqn:W; [discriminate|];
             apply withColumn_inv in W as [_ ->]
         end.
  intros H. apply repartition_rows in H. destruct H as (_ & _ & Hperm).
  unfold count. rewrite (Permutation_length Hperm).
  now rewrite !withColumn_rows, !length_map.
Qed.

(** X3.  [load] never drops or duplicates a row, whatever the columns of
    the input: the dataframe of the plan has the count of the input.  Since
    [validate] looks at its dataframe only through the count, validating
    against the prepared dataframe and validating against the original are
    the same run, for any writer, feature set and client. *)
Theorem validate_after_load (feature_set : FeatureSet) (df : DataFrame)
    (sc : SparkClient) (w : HistoricalFeatureStoreWriter) (plan : WritePlan) :
  result (load feature_set df sc) w = inr plan ->
  count (load_df plan) = count df
  /\ forall (checked : FeatureSet) (sc' : SparkClient) (w' : HistoricalFeatureStoreWriter),
       run (validate checked (load_df plan) sc') w' = run (validate checked df sc') w'.
Proof.
  intros Hres. apply load_result_inv, create_partitions_count in Hres.
  split; [exact Hres|]. intros checked sc' w'.
  now rewrite !validate_run, Hres.
Qed.

(** ** When [load] returns *)

Lemma positions_after_steps (df : DataFrame) (c0 c1 c2 : Column) :
  distinct_names (caseSensitive df)
    [TIMESTAMP_COLUMN; PARTITION_YEAR; PARTITION_MONTH; PARTITION_DAY] = true ->
  let df1 := withColumn_resolved df PARTITION_YEAR c0 in
  let df2 := withColumn_resolved df1 PARTITION_MONTH c1 in
  let df3 := withColumn_resolved df2 PARTITION_DAY c2 in
  positions df1 TIMESTAMP_COLUMN = positions df TIMESTAMP_COLUMN
  /\ positions df2 TIMESTAMP_COLUMN = positions df TIMESTAMP_COLUMN
  /\ positions df3 PARTITION_YEAR
     = match positions df PARTITION_YEAR with
       | [] => [length (schema df)]
       | hits => hits
       end
  /\ positions df3 PARTITION_MONTH
     = match positions df PARTITION_MONTH with
       | [] => [length (schema df1)]
       | hits => hits
       end
  /\ positions df3 PARTITION_DAY
     = match positions df PARTITION_DAY with
       | [] => [length (schema df2)]
       | hits => hits
       end.
Proof.
  intros Hdist df1 df2 df3.
  pose proof (distinct_names_last _ _ _ _ _ Hdist) as Hdt.
  apply distinct_names_four in Hdist
    as (Hyt & Hmt & Hym & Hyd & Hmd & Hmy & Hdy & Hdm).
  destruct (positions_withColumn df PARTITION_YEAR c0) as [Ho1 Hs1].
  destruct (positions_withColumn df1 PARTITION_MONTH c1) as [Ho2 Hs2].
  destruct (positions_withColumn df2 PARTITION_DAY c2) as [Ho3 Hs3].
  fold df1 in Ho1, Hs1. fold df2 in Ho2, Hs2. fold df3 in Ho3, Hs3.
  change (caseSensitive df1) with (caseSensitive df) in *.
  change (caseSensitive df2) with (caseSensitive df) in *.
  split; [now apply Ho1|]. split; [now rewrite Ho2, Ho1|].
  split; [now rewrite Ho3, Ho2, Hs1|].
  split; [now rewrite Ho3, Hs2, Ho1|].
  now rewrite Hs3, Ho2, Ho1.
Qed.

(** The event-time column keeps its type while the partition columns are
    written. *)
Lemma type_after_steps (df : DataFrame) (c0 c1 : Column) (i : nat) :
  distinct_names (caseSensitive df)
    [TIMESTAMP_COLUMN; PARTITION_YEAR; PARTITION_MONTH; PARTITION_DAY] = true ->
  positions df TIMESTAMP_COLUMN = [i] ->
  let df1 := withColumn_resolved df PARTITION_YEAR c0 in
  let df2 := withColumn_resolved df1 PARTITION_MONTH c1 in
  type_at df1 i = type_at df i /\ type_at df2 i = type_at df i.
Proof.
  intros Hdist Hts. cbv zeta.
  pose proof (positions_after_steps df c0 c1 c1 Hdist) as Hpos. cbv zeta in Hpos.
  destruct Hpos as (Ht1 & Ht2 & _).
  apply distinct_names_four in Hdist as (Hyt & Hmt & _).
  pose (d0 := {| field_name := ""; dataType := StringType |}).
  assert (Hi : (i < length (schema df))%nat)
    by (apply (positions_lt df TIMESTAMP_COLUMN); rewrite Hts; now left).
  assert (H1 : nth i (schema (withColumn_resolved df PARTITION_YEAR c0)) d0
               = nth i (schema df) d0).
  { apply withColumn_fields; [|exact Hi].
    apply (positions_disjoint _ TIMESTAMP_COLUMN PARTITION_YEAR).
    - cbn [withColumn_resolved caseSensitive]. now rewrite resolver_sym.
    - rewrite Ht1, Hts. now left. }
  assert (H2 : nth i (schema (withColumn_resolved
                                (withColumn_resolved df PARTITION_YEAR c0)
                                PARTITION_MONTH c1)) d0
               = nth i (schema (withColumn_resolved df PARTITION_YEAR c0)) d0).
  { apply withColumn_fields.
    - apply (positions_disjoint _ TIMESTAMP_COLUMN PARTITION_MONTH).
      + cbn [withColumn_resolved caseSensitive]. now rewrite resolver_sym.
      + rewrite Ht2, Hts. now left.
    - apply (positions_lt _ TIMESTAMP_COLUMN). rewrite Ht1, Hts. now left. }
  unfold type_at. change StringType with (dataType d0). rewrite !map_nth.
  split; [now rewrite H1 | now rewrite H2, H1].
Qed.

Lemma create_partitions_returns (w : HistoricalFeatureStoreWriter) (df : DataFrame) :
  distinct_names (caseSensitive df)
    [TIMESTAMP_COLUMN; PARTITION_YEAR; PARTITION_MONTH; PARTITION_DAY] = true ->
  (exists out : DataFrame, _create_partitions w df = inr out)
  <-> (exists i : nat,
         positions df TIMESTAMP_COLUMN = [i] /\ date_like (type_at df i) = true)
      /\ (length (positions df PARTITION_YEAR) <= 1)%nat
      /\ (length (positions df PARTITION_MONTH) <= 1)%nat
      /\ (length (positions df PARTITION_DAY) <= 1)%nat
      /\ 0 < num_partitions w.
Proof.
  intros Hdist.
  assert (Hto : forall (hits : list nat) (n j : nat),
             match hits with [] => [n] | a :: l => a :: l end = [j] ->
             (length hits <= 1)%nat).
  { intros [|a [|b l]] n j H; cbn; try lia. discriminate. }
  assert (Hfrom : forall (hits : list nat) (n : nat),
             (length hits <= 1)%nat ->
             exists j : nat, match hits with [] => [n] | a :: l => a :: l end = [j]).
  { intros [|a [|b l]] n H; cbn in *; eauto. lia. }
  unfold _create_partitions. split.
  - intros [out Hout].
    destruct (getitem df TIMESTAMP_COLUMN) as [e|c0] eqn:H0; [discriminate|].
    apply getitem_inv_typed in H0 as (i & Hi & _ & Ht0 & Hm0).
    destruct (withColumn df PARTITION_YEAR (year c0)) as [e|df1] eqn:W1; [discriminate|].
    apply withColumn_inv in W1 as [M1 ->].
    apply date_mismatch_none in M1 as [_ Hdate]. rewrite Ht0 in Hdate.
    destruct (getitem _ TIMESTAMP_COLUMN) as [e|c1] in Hout; [discriminate|].
    destruct (withColumn _ PARTITION_MONTH (month c1)) as [e|df2] eqn:W2 in Hout;
      [discriminate|].
    apply withColumn_inv in W2 as [_ ->].
    destruct (getitem _ TIMESTAMP_COLUMN) as [e|c2] in Hout; [discriminate|].
    destruct (withColumn _ PARTITION_DAY (dayofmonth c2)) as [e|df3] eqn:W3 in Hout;
      [discriminate|].
    apply withColumn_inv in W3 as [_ ->].
    destruct (positions_after_steps df (year c0) (month c1) (dayofmonth c2) Hdist)
      as (_ & _ & Hy & Hm & Hd).
    apply repartition_inv in Hout as (Hnp & _ & Hkeys & _).
    split; [now exists i|].
    destruct (Hkeys PARTITION_YEAR) as [jy Hjy]; [now left|].
    destruct (Hkeys PARTITION_MONTH) as [jm Hjm]; [right; now left|].
    destruct (Hkeys PARTITION_DAY) as [jd Hjd]; [right; right; now left|].
    rewrite Hy in Hjy. rewrite Hm in Hjm. rewrite Hd in Hjd.
    split; [eapply Hto; exact Hjy|].
    split; [eapply Hto; exact Hjm|].
    split; [eapply Hto; exact Hjd | exact Hnp].
  - intros ((i & Hi & Hdate) & Hy & Hm & Hd & Hnp).
    destruct (getitem_typed df _ i Hi) as (c0 & -> & _ & Ht0 & Hm0).
    rewrite (withColumn_date_part df PARTITION_YEAR "year" (year c0) c0 eq_refl Hm0),
      Ht0, Hdate.
    destruct (positions_after_steps df (year c0) (year c0) (year c0) Hdist)
      as (Ht1 & _).
    destruct (getitem_typed (withColumn_resolved df PARTITION_YEAR (year c0))
                TIMESTAMP_COLUMN i) as (c1 & -> & _ & Hty1 & Hm1); [now rewrite Ht1|].
    destruct (type_after_steps df (year c0) (month c1) i Hdist Hi) as [T1 T2].
    rewrite (withColumn_date_part _ PARTITION_MONTH "month" (month c1) c1 eq_refl Hm1),
      Hty1, T1, Hdate.
    destruct (positions_after_steps df (year c0) (month c1) (year c0) Hdist)
      as (_ & Ht2 & _).
    destruct (getitem_typed
                (withColumn_resolved (withColumn_resolved df PARTITION_YEAR (year c0))
                   PARTITION_MONTH (month c1)) TIMESTAMP_COLUMN i)
      as (c2 & -> & _ & Hty2 & Hm2); [now rewrite Ht2|].
    rewrite (withColumn_date_part _ PARTITION_DAY "dayofmonth" (dayofmonth c2) c2
               eq_refl Hm2), Hty2, T2, Hdate.
    destruct (positions_after_steps df (year c0) (month c1) (dayofmonth c2) Hdist)
      as (_ & _ & Hy3 & Hm3 & Hd3).
    apply (Hfrom _ (length (schema df))) in Hy. destruct Hy as [jy Hjy].
    apply (Hfrom _ (length (schema (withColumn_resolved df PARTITION_YEAR (year c0)))))
      in Hm.
    destruct Hm as [jm Hjm].
    apply (Hfrom _ (length (schema (withColumn_resolved
                                      (withColumn_resolved df PARTITION_YEAR (year c0))
                                      PARTITION_MONTH (month c1))))) in Hd.
    destruct Hd as [jd Hjd].
    rewrite Hjy in Hy3. rewrite Hjm in Hm3. rewrite Hjd in Hd3.
    destruct (getitem_unique _ _ jy Hy3) as (cy & Hcy & _).
    destruct (getitem_unique _ _ jm Hm3) as (cm & Hcm & _).
    destruct (getitem_unique _ _ jd Hd3) as (cd & Hcd & _).
    unfold repartition_df, repartition.
    destruct (num_partitions w <=? 0) eqn:Hle; [apply Z.leb_le in Hle; lia|].
    unfold PARTITION_BY. cbn [key_columns]. rewrite Hcy, Hcm, Hcd. eauto.
Qed.

(** X4.  [load] returns a plan exactly when the event-time name resolves
    to one column of the input and that column is a timestamp, a date or a
    string, none of the three partition names resolves to more than one
    column, the writer's partition count is positive and, out of debug mode,
    the session's overwrite mode reads ["dynamic"] in any letter case.  In
    every other case it raises. *)
Theorem load_returns_iff (feature_set : FeatureSet) (df : DataFrame) (sc : SparkClient)
    (w : HistoricalFeatureStoreWriter) :
  distinct_names (caseSensitive df)
    [TIMESTAMP_COLUMN; PARTITION_YEAR; PARTITION_MONTH; PARTITION_DAY] = true ->
  (exists plan : WritePlan, result (load feature_set df sc) w = inr plan)
  <-> (exists i : nat,
         positions df TIMESTAMP_COLUMN = [i] /\ date_like (type_at df i) = true)
      /\ (length (positions df PARTITION_YEAR) <= 1)%nat
      /\ (length (positions df PARTITION_MONTH) <= 1)%nat
      /\ (length (positions df PARTITION_DAY) <= 1)%nat
      /\ 0 < num_partitions w
      /\ (debug_mode w = true
          \/ Py.lower (conf sc "spark.sql.sources.partitionOverwriteMode") = "dynamic").
Proof.
  intros Hdist. pose proof (create_partitions_returns w df Hdist) as Hcp.
  unfold result. rewrite load_run. cbv zeta. split.
  - intros [plan Hplan].
    destruct (_create_partitions w df) as [e|out]; [discriminate|].
    destruct (proj1 Hcp) as (Hi & Hy & Hm & Hd & Hnp); [eauto|].
    split; [exact Hi|]. split; [exact Hy|]. split; [exact Hm|]. split; [exact Hd|].
    split; [exact Hnp|].
    destruct (debug_mode w); [now left | right].
    destruct (String.eqb _ "dynamic") eqn:Hmode; [|discriminate].
    now apply String.eqb_eq in Hmode.
  - intros (Hi & Hy & Hm & Hd & Hnp & Hmode).
    destruct (proj2 Hcp) as [out ->]; [auto|].
    destruct (debug_mode w); [cbn [fst]; eauto|].
    destruct Hmode as [Hmode | Hmode]; [discriminate|].
    rewrite Hmode. cbn [fst]. eauto.
Qed.

(** ** Preparing a prepared dataframe *)

Lemma put_column_same {A : Type} (j : nat) (x : A) (l : list A) :
  l !! j = Some x -> put_column [j] x l = l.
Proof.
  intros Hj. unfold put_column. apply list_eq. intros k.
  rewrite list_lookup_imap. destruct (l !! k) as [a|] eqn:Hk; [|reflexivity].
  cbn. destruct (bool_decide (k ∈ [j])) eqn:Hb; [|reflexivity].
  apply bool_decide_eq_true in Hb. apply list_elem_of_In in Hb.
  destruct Hb as [<- | []]. congruence.
Qed.

Lemma withColumn_same (df : DataFrame) (colName : string) (col : Column) (j : nat) :
  positions df colName = [j] ->
  schema df !! j = Some {| field_name := colName; dataType := col_type col |} ->
  well_formed df ->
  (forall r : Row, In r (rows df) -> col_eval col r = nth j r Null) ->
  withColumn_resolved df colName col = df.
Proof.
  intros Hp Hf Hwf Hv. unfold withColumn_resolved. rewrite Hp, (put_column_same _ _ _ Hf).
  destruct df as [sch parts cs]. cbn [schema partitions caseSensitive] in *.
  f_equal. rewrite <- (map_id parts) at 2. apply map_ext_in. intros part Hpart.
  rewrite <- (map_id part) at 2. apply map_ext_in. intros r Hr.
  assert (Hin : In r (rows {| schema := sch; partitions := parts; caseSensitive := cs |})).
  { unfold rows. cbn [partitions]. apply in_concat. eauto. }
  apply put_column_same. rewrite (Hv r Hin).
  assert (Hlt : (j < length r)%nat).
  { unfold well_formed in Hwf. rewrite Forall_forall in Hwf.
    rewrite (Hwf r) by now apply list_elem_of_In.
    cbn [schema]. now apply lookup_lt_Some in Hf. }
  destruct (lookup_lt_is_Some_2 _ _ Hlt) as [y Hy]. rewrite Hy. f_equal.
  symmetry. now apply nth_lookup_Some.
Qed.

Lemma create_partitions_positive (w : HistoricalFeatureStoreWriter) (df out : DataFrame) :
  _create_partitions w df = inr out -> 0 < num_partitions w.
Proof.
  unfold _create_partitions, repartition_df.
  repeat lazymatch goal with
         | |- match getitem ?d ?c with _ => _ end = _ -> _ =>
             destruct (getitem d c); [discriminate | cbv zeta]
         | |- match withColumn ?d ?c ?col with _ => _ end = _ -> _ =>
             let W := fresh "W" in
             destruct (withColumn d c col) eqn:W; [discriminate|];
             apply withColumn_inv in W as [_ ->]
         end.
  intros H. now apply repartition_inv in H.
Qed.

Lemma create_partitions_again (w : HistoricalFeatureStoreWriter) (df out : DataFrame) :
  distinct_names (caseSensitive df)
    [TIMESTAMP_COLUMN; PARTITION_YEAR; PARTITION_MONTH; PARTITION_DAY] = true ->
  well_formed df ->
  _create_partitions w df = inr out ->
  exists again : DataFrame,
    _create_partitions w out = inr again
    /\ schema again = schema out /\ rows again ≡ₚ rows out.
Proof.
  intros Hd Hwf Hres. pose proof (create_partitions_positive w df out Hres) as Hnp.
  destruct (create_partitions_consistent w df out Hd Hwf Hres)
    as (i & jy & jm & jd & Hts & Hy & Hm & Hday & Hfy & Hfm & Hfd
        & (Hwf' & Hdate) & Hrows).
  rewrite Forall_forall in Hrows.
  assert (Hv : forall r : Row, In r (rows out) ->
             nth jy r Null = year_of (nth i r Null)
             /\ nth jm r Null = month_of (nth i r Null)
             /\ nth jd r Null = dayofmonth_of (nth i r Null)).
  { intros r Hr. apply Hrows. now apply list_elem_of_In. }
  destruct (getitem_typed out TIMESTAMP_COLUMN i Hts) as (ts & Hget & Hev & Hty & Hmm).
  assert (Hsy : withColumn_resolved out PARTITION_YEAR (year ts) = out).
  { apply (withColumn_same out PARTITION_YEAR (year ts) jy Hy Hfy Hwf').
    intros r Hr. cbn [year col_eval]. rewrite Hev. symmetry. now apply Hv. }
  assert (Hsm : withColumn_resolved out PARTITION_MONTH (month ts) = out).
  { apply (withColumn_same out PARTITION_MONTH (month ts) jm Hm Hfm Hwf').
    intros r Hr. cbn [month col_eval]. rewrite Hev. symmetry. now apply Hv. }
  assert (Hsd : withColumn_resolved out PARTITION_DAY (dayofmonth ts) = out).
  { apply (withColumn_same out PARTITION_DAY (dayofmonth ts) jd Hday Hfd Hwf').
    intros r Hr. cbn [dayofmonth col_eval]. rewrite Hev. symmetry. now apply Hv. }
  unfold _create_partitions. rewrite Hget. cbv beta iota zeta.
  rewrite (withColumn_date_part out PARTITION_YEAR "year" (year ts) ts eq_refl Hmm),
    Hty, Hdate, Hsy, Hget.
  cbv beta iota zeta.
  rewrite (withColumn_date_part out PARTITION_MONTH "month" (month ts) ts eq_refl Hmm),
    Hty, Hdate, Hsm, Hget.
  cbv beta iota zeta.
  rewrite (withColumn_date_part out PARTITION_DAY "dayofmonth" (dayofmonth ts) ts
             eq_refl Hmm), Hty, Hdate, Hsd.
  cbv beta iota zeta.
  unfold repartition_df, repartition.
  destruct (num_partitions w <=? 0) eqn:Hle; [apply Z.leb_le in Hle; lia|].
  destruct (getitem_unique out PARTITION_YEAR jy Hy) as (cy & Hcy & _).
  destruct (getitem_unique out PARTITION_MONTH jm Hm) as (cm & Hcm & _).
  destruct (getitem_unique out PARTITION_DAY jd Hday) as (cd & Hcd & _).
  assert (Hkeys : key_columns out PARTITION_BY = inr [cy; cm; cd]).
  { unfold PARTITION_BY. cbn [key_columns]. now rewrite Hcy, Hcm, Hcd. }
  eexists. split; [rewrite Hkeys; reflexivity|].
  assert (Hrep : repartition out (num_partitions w) PARTITION_BY
                 = inr {| schema := schema out;
                          partitions :=
                            map (fun k => List.filter
                                            (fun r => bucket (num_partitions w) [cy; cm; cd] r
                                                      =? Z.of_nat k) (rows out))
                                (seq 0 (Z.to_nat (num_partitions w)));
                          caseSensitive := caseSensitive out |}).
  { unfold repartition. now rewrite Hle, Hkeys. }
  apply repartition_rows in Hrep. destruct Hrep as (Hs & _ & Hperm).
  split; [exact Hs | exact Hperm].
Qed.

(** X5.  Preparing twice changes nothing more: given back the dataframe of
    a plan it returned, [load] on the same writer and client returns a plan
    again, and its dataframe has the same header and the same rows.  The
    three partition columns are found in place and rewritten with the values
    they already hold. *)
Theorem load_again (feature_set : FeatureSet) (df : DataFrame) (sc : SparkClient)
    (w : HistoricalFeatureStoreWriter) (plan : WritePlan) :
  distinct_names (caseSensitive df)
    [TIMESTAMP_COLUMN; PARTITION_YEAR; PARTITION_MONTH; PARTITION_DAY] = true ->
  well_formed df ->
  result (load feature_set df sc) w = inr plan ->
  exists again : WritePlan,
    result (load feature_set (load_df plan) sc) (writer_after (load feature_set df sc) w)
    = inr again
    /\ schema (load_df again) = schema (load_df plan)
    /\ rows (load_df again) ≡ₚ rows (load_df plan)
    /\ options again = options plan
    /\ table_name again = table_name plan.
Proof.
  intros Hd Hwf Hres. pose proof (load_result_inv _ _ _ _ _ Hres) as Hcp.
  destruct (create_partitions_again w df (load_df plan) Hd Hwf Hcp)
    as (again & Hagain & Hs & Hperm).
  revert Hres. unfold result. rewrite !load_run, load_writer_after. cbv zeta.
  rewrite Hcp.
  rewrite (create_partitions_num_partitions w _ (load_df plan)) by reflexivity.
  rewrite Hagain.
  cbn [debug_mode db_config database set_pre_hooks set_check_schema].
  destruct (debug_mode w).
  - cbn [fst]. intros H. injection H as <-. eexists. split; [reflexivity|].
    cbn [load_df options table_name]. repeat split; assumption.
  - destruct (String.eqb _ "dynamic"); [|discriminate].
    cbn [fst]. intros H. injection H as <-. eexists. split; [reflexivity|].
    cbn [load_df options table_name]. repeat split; assumption.
Qed.

(** ** Without an event time *)

(** X6.  When the event-time column is missing from the input, or more than
    one column answers to its name, [load] raises the analysis error of the
    column lookup in debug mode and out of it alike: the overwrite mode is not
    read and the storage configuration is not asked.  The hook has been
    stored and registered by then all the same. *)
Theorem load_without_event_time (feature_set : FeatureSet) (df : DataFrame)
    (sc : SparkClient) (w : HistoricalFeatureStoreWriter) :
  (forall i : nat, positions df TIMESTAMP_COLUMN <> [i]) ->
  (exists msg : string,
     result (load feature_set df sc) w = inl (Py.AnalysisException msg))
  /\ (forall c : Call,
        In c (calls_of (load feature_set df sc) w) ->
        c = NewSchemaHook (name feature_set) (database w))
  /\ exists h : Hook,
       check_schema (writer_after (load feature_set df sc) w) = Some h
       /\ pre_hooks (writer_after (load feature_set df sc) w) = pre_hooks w ++ [h].
Proof.
  intros Hts.
  assert (Hcp : exists msg, _create_partitions w df = inl (Py.AnalysisException msg)).
  { unfold _create_partitions, getitem.
    destruct (positions df TIMESTAMP_COLUMN) as [|i [|j l]] eqn:Hp.
    - eauto.
    - now destruct (Hts i).
    - eauto. }
  destruct Hcp as [msg Hcp].
  unfold result, calls_of. rewrite load_writer_after, load_run. cbv zeta.
  rewrite Hcp. cbn [fst snd calls]. split; [eauto|]. split.
  - destruct (check_schema w); [intros c [] | intros c [<-|[]]; reflexivity].
  - eexists. split; reflexivity.
Qed.

(** ** The storage key, in general *)

Lemma endswith_char_append (a b : string) (c : ascii) :
  b <> "" -> Py.endswith_char (a +:+ b) c = Py.endswith_char b c.
Proof.
  intros Hb. induction a as [|x a IH]; [reflexivity|].
  rewrite append_cons. cbn [Py.endswith_char]. rewrite IH.
  destruct (a +:+ b) eqn:Hab; [|reflexivity].
  destruct a; [|discriminate]. now rewrite append_nil in Hab.
Qed.

Lemma slash_free_endswith (s : string) :
  slash_free s = true -> Py.endswith_char s "/" = false.
Proof.
  induction s as [|x s IH]; [reflexivity|].
  cbn [slash_free Py.endswith_char]. intros H. apply andb_true_iff in H.
  destruct H as [Hx Hs]. apply negb_true_iff in Hx.
  destruct s; [exact Hx | now apply IH].
Qed.

Lemma storage_key_shape (entity name : string) :
  entity <> "" -> slash_free entity = true -> Py.startswith name "/" = false ->
  Py.os_path_join "historical" [entity; name] = "historical/" +:+ entity +:+ "/" +:+ name.
Proof.
  intros He Hs Hn. unfold Py.os_path_join. cbn [fold_left].
  assert (Hstart : Py.startswith entity "/" = false).
  { destruct entity as [|c e]; [reflexivity|].
    cbn [slash_free] in Hs. apply andb_true_iff in Hs. destruct Hs as [Hc _].
    apply negb_true_iff in Hc. unfold Py.startswith. cbn [String.prefix].
    destruct (ascii_dec "/" c) as [<-|]; [discriminate | reflexivity]. }
  unfold Py.path_join_step at 2. rewrite Hstart.
  change (("historical" =? "")%string || Py.endswith_char "historical" "/")%bool with false.
  cbv iota. unfold Py.path_join_step. rewrite Hn.
  replace (("historical" +:+ "/" +:+ entity =? "")%string) with false by reflexivity.
  rewrite orb_false_l.
  rewrite (endswith_char_append "historical" ("/" +:+ entity)) by discriminate.
  rewrite (endswith_char_append "/" entity _ He), (slash_free_endswith entity Hs).
  now rewrite !append_assoc.
Qed.

Lemma slash_free_split (a a' b b' : string) :
  slash_free a = true -> slash_free a' = true ->
  a +:+ "/" +:+ b = a' +:+ "/" +:+ b' -> a = a' /\ b = b'.
Proof.
  revert a'. induction a as [|x a IH]; intros [|x' a'] Ha Ha' H.
  - rewrite !append_nil, !append_cons, !append_nil in H.
    split; [reflexivity | congruence].
  - exfalso. rewrite append_nil, !append_cons in H. cbn [slash_free] in Ha'.
    apply andb_true_iff in Ha'. destruct Ha' as [Hx _].
    injection H as H _. subst x'. discriminate.
  - exfalso. rewrite append_nil, !append_cons in H. cbn [slash_free] in Ha.
    apply andb_true_iff in Ha. destruct Ha as [Hx _].
    injection H as H _. subst x. discriminate.
  - rewrite !append_cons in H. injection H as -> H.
    cbn [slash_free] in Ha, Ha'.
    apply andb_true_iff in Ha. apply andb_true_iff in Ha'.
    destruct (IH a' (proj2 Ha) (proj2 Ha') H) as [-> ->]. now split.
Qed.

Lemma load_get_options_key (feature_set : FeatureSet) (df : DataFrame)
    (sc : SparkClient) (w : HistoricalFeatureStoreWriter) (k : string) :
  In (GetOptions k) (calls_of (load feature_set df sc) w) ->
  k = Py.os_path_join "historical" [entity feature_set; name feature_set].
Proof.
  unfold calls_of. rewrite load_run. cbv zeta.
  assert (Hmade : ~ In (GetOptions k)
                      match check_schema w with
                      | Some _ => []
                      | None => [NewSchemaHook (name feature_set) (database w)]
                      end).
  { destruct (check_schema w); [intros [] | intros [H|[]]; discriminate]. }
  destruct (_create_partitions w df) as [e|out]; cbn [snd calls].
  { intros H. contradiction. }
  destruct (debug_mode w); [|destruct (String.eqb _ "dynamic")]; cbn [snd calls];
    rewrite in_app_iff; intros [H|H]; try contradiction.
  - destruct H as [H|[]]. now injection H as <-.
  - destruct H as [H|[H|[]]]; [discriminate | now injection H as <-].
  - destruct H as [H|[]]. discriminate.
Qed.

(** X7.  For an entity that is not empty and holds no path separator, and a
    name that does not start with one, the key [load] asks the storage
    configuration about is ["historical/{entity}/{name}"]. *)
Theorem load_storage_key_shape (feature_set : FeatureSet) (df : DataFrame)
    (sc : SparkClient) (w : HistoricalFeatureStoreWriter) (k : string) :
  entity feature_set <> "" ->
  slash_free (entity feature_set) = true ->
  Py.startswith (name feature_set) "/" = false ->
  In (GetOptions k) (calls_of (load feature_set df sc) w) ->
  k = "historical/" +:+ entity feature_set +:+ "/" +:+ name feature_set.
Proof.
  intros He Hs Hn Hk. apply load_get_options_key in Hk. subst k.
  now apply storage_key_shape.
Qed.

(** X8.  Under the same conditions on entity and name, two loads that ask
    for the same storage key were given feature sets with the same entity and
    the same name: distinct feature sets are never sent to the same path. *)
Theorem load_storage_key_injective (a b : FeatureSet) (df df' : DataFrame)
    (sc sc' : SparkClient) (w w' : HistoricalFeatureStoreWriter) (k : string) :
  entity a <> "" -> slash_free (entity a) = true -> Py.startswith (name a) "/" = false ->
  entity b <> "" -> slash_free (entity b) = true -> Py.startswith (name b) "/" = false ->
  In (GetOptions k) (calls_of (load a df sc) w) ->
  In (GetOptions k) (calls_of (load b df' sc') w') ->
  entity a = entity b /\ name a = name b.
Proof.
  intros Hea Hsa Hna Heb Hsb Hnb Ha Hb.
  apply load_get_options_key in Ha. apply load_get_options_key in Hb.
  rewrite storage_key_shape in Ha by assumption.
  rewrite storage_key_shape in Hb by assumption.
  rewrite Ha in Hb. rewrite !append_cons, !append_nil in Hb.
  repeat match type of Hb with String _ _ = String _ _ => injection Hb as Hb end.
  now apply slash_free_split.
Qed.

(** X9.  A feature-set name that starts with the path separator is taken as
    an absolute path: the key is the name alone, and neither ["historical"]
    nor the entity is part of it. *)
Theorem load_storage_key_absolute_name (feature_set : FeatureSet) (df : DataFrame)
    (sc : SparkClient) (w : HistoricalFeatureStoreWriter) (k : string) :
  Py.startswith (name feature_set) "/" = true ->
  In (GetOptions k) (calls_of (load feature_set df sc) w) ->
  k = name feature_set.
Proof.
  intros Hn Hk. apply load_get_options_key in Hk. subst k.
  unfold Py.os_path_join. cbn [fold_left]. unfold Py.path_join_step at 1.
  now rewrite Hn.
Qed.

(** ** The hook and the table, from one call to the next *)

(** X10.  The schema hook is made at most once in the life of a writer.
    After any first [load], whatever it returned or raised, the writer holds
    a hook; any later [load], for any feature set, dataframe and client,
    makes no new hook, keeps that one, and registers it once more. *)
Theorem load_hook_made_once (first later : FeatureSet) (df df' : DataFrame)
    (sc sc' : SparkClient) (w : HistoricalFeatureStoreWriter) :
  exists h : Hook,
    check_schema (writer_after (load first df sc) w) = Some h
    /\ (check_schema w = None ->
        h = SparkTableSchemaCompatibilityHook sc (name first) (database w))
    /\ check_schema
         (writer_after (load later df' sc') (writer_after (load first df sc) w))
       = Some h
    /\ pre_hooks
         (writer_after (load later df' sc') (writer_after (load first df sc) w))
       = pre_hooks w ++ [h; h]
    /\ forall (t : string) (db : option string),
         ~ In (NewSchemaHook t db)
             (calls_of (load later df' sc') (writer_after (load first df sc) w)).
Proof.
  rewrite !load_writer_after. cbv zeta.
  set (h := match check_schema w with
            | Some h => h
            | None => SparkTableSchemaCompatibilityHook sc (name first) (database w)
            end).
  exists h. cbn [check_schema pre_hooks set_pre_hooks set_check_schema].
  split; [reflexivity|]. split; [now unfold h; intros ->|].
  split; [reflexivity|]. split; [now rewrite <- app_assoc|].
  intros t db. unfold calls_of. rewrite load_run. cbv zeta.
  cbn [check_schema pre_hooks set_pre_hooks set_check_schema debug_mode].
  destruct (_create_partitions _ df') as [e|out]; cbn [snd calls]; [intros []|].
  destruct (debug_mode w); [|destruct (String.eqb _ "dynamic")]; cbn [snd calls app].
  - intros [H|[]]. discriminate.
  - intros [H|[H|[]]]; discriminate.
  - intros [H|[]]. discriminate.
Qed.

(** X11.  A writer built without a database name (none given, or the empty
    string) uses what the environment gives for
    [FEATURE_STORE_HISTORICAL_DATABASE]: its plans carry that value, and out
    of debug mode [validate] asks for the table of that database. *)
Theorem validate_without_database (cfg : option DbConfig) (db : option string)
    (np : option Z) (t : Py.Num) (hook : option Hook)
    (feature_set : FeatureSet) (df : DataFrame) (sc : SparkClient) :
  db = None \/ db = Some "" ->
  let w := __init__ cfg db np t false hook in
  let found := environment_get_variable "FEATURE_STORE_HISTORICAL_DATABASE" in
  let table := Py.str_of_opt found +:+ "." +:+ name feature_set in
  database w = found
  /\ calls_of (validate feature_set df sc) w
     = [GetOptions table;
        Read (format_ (db_config w)) (get_options (db_config w) table)]
  /\ forall plan : WritePlan,
       result (load feature_set df sc) w = inr plan -> plan_database plan = found.
Proof.
  intros Hdb w found table.
  assert (Hw : database w = found).
  { unfold w, __init__. cbn [database]. now destruct Hdb as [-> | ->]. }
  split; [exact Hw|]. split.
  - unfold calls_of. rewrite validate_run.
    change (debug_mode w) with false. cbv iota zeta. cbn [snd calls].
    rewrite Hw. reflexivity.
  - intros plan. unfold result. rewrite load_run. cbv zeta.
    destruct (_create_partitions w df) as [e|out]; [discriminate|].
    change (debug_mode w) with false. cbv iota.
    destruct (String.eqb _ "dynamic"); [|discriminate].
    cbn [fst]. intros H. injection H as <-. exact Hw.
Qed.

(** X12.  [load] and [validate] agree on the table.  After a [load] that
    returned a plan, [validate] on the same writer and feature set reads back
    from the table the plan names: in debug mode the table
    ["historical_feature_store__"] followed by the plan's table name, read
    directly; otherwise ["{database}.{table}"] of the plan, with the format
    and the options of the plan's storage configuration for that name.  The
    [path] option of the plan plays no part in the read. *)
Theorem validate_reads_the_plan (feature_set : FeatureSet) (df checked : DataFrame)
    (sc sc' : SparkClient) (w : HistoricalFeatureStoreWriter) (plan : WritePlan) :
  result (load feature_set df sc) w = inr plan ->
  calls_of (validate feature_set checked sc') (writer_after (load feature_set df sc) w)
  = if debug_mode w then
      [ReadTable ("historical_feature_store__" +:+ table_name plan)]
    else
      let table := Py.str_of_opt (plan_database plan) +:+ "." +:+ table_name plan in
      [GetOptions table;
       Read (format_ (plan_db_config plan)) (get_options (plan_db_config plan) table)].
Proof.
  unfold result, calls_of. rewrite validate_run, load_writer_after, load_run. cbv zeta.
  cbn [debug_mode db_config database set_pre_hooks set_check_schema].
  destruct (_create_partitions w df) as [e|out]; [discriminate|].
  destruct (debug_mode w).
  - cbn [fst snd calls]. intros H. now injection H as <-.
  - destruct (String.eqb _ "dynamic"); [|discriminate].
    cbn [fst snd calls]. intros H. now injection H as <-.
Qed.

(** ** Count validation at the edges *)

Lemma float_mul_zero (x : spec_float) :
  Py.float_mul x (S754_zero false) = S754_nan
  \/ exists s : bool, Py.float_mul x (S754_zero false) = S754_zero s.
Proof. destruct x; cbn; eauto. Qed.

Lemma nothing_read_passes_only_zero (self : HistoricalFeatureStoreWriter)
    (table : string) (d : Z) :
  _assert_validation_count self table 0 d = inr tt -> d = 0.
Proof.
  intros H. destruct (validation_threshold self) as [n|f] eqn:Ht.
  - destruct (bounds_int self n 0 Ht) as [Hlo Hhi].
    apply (assert_validation_count_cases self table 0 d _ _ Hlo Hhi) in H.
    destruct H as [H1 H2]. cbn [Py.le] in H1, H2.
    apply Z.leb_le in H1, H2. lia.
  - assert (Hw : Py.float_of_int 0 = inr (S754_zero false)) by reflexivity.
    destruct (bounds_float self f _ 0 Ht Hw) as [Hlo Hhi].
    apply (assert_validation_count_cases self table 0 d _ _ Hlo Hhi) in H.
    destruct H as [H1 H2]. cbn [Py.le] in H1, H2.
    destruct (float_mul_zero (Py.float_sub Py.float_one f)) as [Ha | [s Ha]];
      rewrite Ha in H1; cbn [Py.float_cmp_int] in H1; [discriminate|].
    destruct (float_mul_zero (Py.float_add Py.float_one f)) as [Hb | [s' Hb]];
      rewrite Hb in H2; cbn [Py.float_cmp_int] in H2; [discriminate|].
    destruct (0 ?= d) eqn:Hc; cbn in H1, H2; try discriminate.
    apply Z.compare_eq in Hc. lia.
Qed.

Lemma nothing_read_bounds (self : HistoricalFeatureStoreWriter) :
  exists lo hi : Py.Num, lower_bound self 0 = inr lo /\ upper_bound self 0 = inr hi.
Proof.
  destruct (validation_threshold self) as [n|f] eqn:Ht.
  - destruct (bounds_int self n 0 Ht) as [Hlo Hhi]. eauto.
  - assert (Hw : Py.float_of_int 0 = inr (S754_zero false)) by reflexivity.
    destruct (bounds_float self f _ 0 Ht Hw) as [Hlo Hhi]. eauto.
Qed.

(** X13.  When nothing was read back, the band around the written count is
    the single point zero whatever the threshold is: every dataframe count
    other than zero raises the [AssertionError].  With an int threshold the
    count zero passes. *)
Theorem assert_validation_count_nothing_read (self : HistoricalFeatureStoreWriter)
    (table : string) (d : Z) :
  (d <> 0 ->
   _assert_validation_count self table 0 d
   = inl (Py.AssertionError (validation_message table 0 d)))
  /\ (forall n : Z,
        validation_threshold self = Py.Int n ->
        _assert_validation_count self table 0 0 = inr tt).
Proof.
  split.
  - intros Hd. destruct (nothing_read_bounds self) as (lo & hi & Hlo & Hhi).
    destruct (assert_validation_count_cases self table 0 d _ _ Hlo Hhi)
      as [_ [Hpass | Hfail]]; [|exact Hfail].
    apply nothing_read_passes_only_zero in Hpass. contradiction.
  - intros n Ht. destruct (bounds_int self n 0 Ht) as [Hlo Hhi].
    apply (assert_validation_count_cases self table 0 0 _ _ Hlo Hhi).
    cbn [Py.le]. split; apply Z.leb_le; lia.
Qed.

(** X14.  With an int threshold the bounds are exact.  Equal counts then
    pass for every threshold that is not negative; and a negative threshold,
    which the constructor accepts, turns the band inside out: once something
    was read back no count passes. *)
Theorem assert_validation_count_int_threshold (self : HistoricalFeatureStoreWriter)
    (table : string) (n w : Z) :
  validation_threshold self = Py.Int n ->
  (0 <= n -> 0 <= w -> _assert_validation_count self table w w = inr tt)
  /\ (n < 0 -> 0 < w ->
      forall d : Z,
        _assert_validation_count self table w d
        = inl (Py.AssertionError (validation_message table w d))).
Proof.
  intros Ht. destruct (bounds_int self n w Ht) as [Hlo Hhi]. split.
  - intros Hn Hw.
    apply (assert_validation_count_cases self table w w _ _ Hlo Hhi).
    cbn [Py.le]. split; apply Z.leb_le; nia.
  - intros Hn Hw d.
    destruct (assert_validation_count_cases self table w d _ _ Hlo Hhi)
      as [Hiff [Hpass | Hfail]]; [|exact Hfail].
    apply Hiff in Hpass. destruct Hpass as [H1 H2]. cbn [Py.le] in H1, H2.
    apply Z.leb_le in H1, H2. nia.
Qed.

(** X15.  The threshold is used as it comes.  With a NaN threshold both
    bounds are NaN and no count ever passes; with an infinite threshold the
    bounds are the two infinities and, once something was read back, every
    count passes. *)
Theorem assert_validation_count_not_finite (self : HistoricalFeatureStoreWriter)
    (table : string) (w d : Z) :
  (validation_threshold self = Py.Float S754_nan ->
   _assert_validation_count self table w d <> inr tt)
  /\ (validation_threshold self = Py.Float (S754_infinity false) ->
      0 < w < 2 ^ 53 ->
      _assert_validation_count self table w d = inr tt).
Proof.
  split.
  - intros Ht H. destruct (Py.float_of_int w) as [e|fw] eqn:Hw.
    + unfold _assert_validation_count, lower_bound in H. rewrite Ht in H.
      change (Py.sub (Py.Int 1) (Py.Float S754_nan))
        with (@inr Py.Exception _ (Py.Float (Py.float_sub Py.float_one S754_nan))) in H.
      unfold Py.mul, Py.binop, Py.to_float in H. rewrite Hw in H. discriminate.
    + destruct (bounds_float self _ fw w Ht Hw) as [Hlo Hhi].
      apply (assert_validation_count_cases self table w d _ _ Hlo Hhi) in H.
      destruct H as [H1 _]. discriminate.
  - intros Ht [H0 H53]. destruct w as [|p|p]; [lia | | lia].
    destruct (float_of_int_exact p H53) as (m & e & Hf & _).
    destruct (bounds_float self _ _ (Zpos p) Ht Hf) as [Hlo Hhi].
    apply (assert_validation_count_cases self table (Zpos p) d _ _ Hlo Hhi).
    split; reflexivity.
Qed.

End Methods.

(** ** A worked instance

    The column names as the specification lists them, a session in UTC, a
    small feature set, and the configuration a pipeline would run with. *)

(** The civil date of a day count since 1970-01-01. *)
Definition civil_from_days (days : Z) : Z * Z * Z :=
  let z := days + 719468 in
  let era := z / 146097 in
  let doe := z - era * 146097 in
  let yoe := (doe - doe / 1460 + doe / 36524 - doe / 146096) / 365 in
  let doy := doe - (365 * yoe + yoe / 4 - yoe / 100) in
  let mp := (5 * doy + 2) / 153 in
  let d := doy - (153 * mp + 2) / 5 + 1 in
  let m := if mp <? 10 then mp + 3 else mp - 9 in
  let y := yoe + era * 400 + (if m <=? 2 then 1 else 0) in
  (y, m, d).

Definition utc_field (pick : Z * Z * Z -> Z) (v : Value) : Value :=
  match v with
  | TimestampV micros => IntV (pick (civil_from_days (micros / 86400000000)))
  | _ => Null
  end.

Definition utc_year : Value -> Value := utc_field (fun ymd => fst (fst ymd)).
Definition utc_month : Value -> Value := utc_field (fun ymd => snd (fst ymd)).
Definition utc_dayofmonth : Value -> Value := utc_field (fun ymd => snd ymd).

Definition sum_hash (key : list Value) : Z :=
  fold_right (fun v acc => match v with IntV n => n + acc | _ => acc end) 0 key.

Definition bucket_config : DbConfig :=
  {| format_ := "parquet";
     get_options := fun key =>
       {[ "mode" := "overwrite"; "format_" := "parquet";
          "path" := "s3a://bucket/" +:+ key ]} |}.

Definition environment (variable : string) : option string :=
  if String.eqb variable "FEATURE_STORE_HISTORICAL_DATABASE"
  then Some "feature_store" else None.

Definition house_listings : FeatureSet :=
  {| name := "house_listings"; entity := "house" |}.

Definition user_clicks : FeatureSet :=
  {| name := "user_clicks"; entity := "user" |}.

(** Three listings: 2020-02-29 23:59:59, 2020-03-01 00:00:00 and
    2021-12-31 12:00:00, all UTC. *)
Definition listings : DataFrame :=
  {| schema := [ {| field_name := "id"; dataType := LongType |};
                 {| field_name := "timestamp"; dataType := TimestampType |};
                 {| field_name := "rent"; dataType := IntegerType |} ];
     partitions := [ [ [IntV 1; TimestampV 1583020799000000; IntV 900];
                       [IntV 2; TimestampV 1583020800000000; IntV 1200] ];
                     [ [IntV 3; TimestampV 1640952000000000; IntV 750] ] ];
     caseSensitive := false |}.

(** A feature set that has a feature of its own called [year]. *)
Definition listings_by_year : DataFrame :=
  {| schema := [ {| field_name := "timestamp"; dataType := TimestampType |};
                 {| field_name := "year"; dataType := StringType |} ];
     partitions := [ [ [TimestampV 1583020799000000; StringV "built in 1987"] ] ];
     caseSensitive := false |}.

Definition session (overwrite_mode : string) (written : DataFrame) : SparkClient :=
  {| conf := fun key =>
       if String.eqb key "spark.sql.sources.partitionOverwriteMode"
       then overwrite_mode else "";
     read := fun _ _ => inr written;
     read_table := fun _ => inr written |}.

Definition new_writer (validation_threshold : Py.Num) (debug_mode : bool)
    : HistoricalFeatureStoreWriter :=
  __init__ 200 environment bucket_config None None (Some 4)
    validation_threshold debug_mode None.

(** The literal [0.001]: the binary64 number nearest to one thousandth. *)
Definition one_per_mille : spec_float := S754_finite false 4611686018427388 (-62).

Definition load_in_utc (feature_set : FeatureSet) (df : DataFrame) (sc : SparkClient)
    : M WritePlan :=
  load utc_year utc_month utc_dayofmonth sum_hash "timestamp" "year" "month" "day"
    feature_set df sc.

(** A dataframe whose event time goes by another name. *)
Definition listings_untimed : DataFrame :=
  {| schema := [ {| field_name := "id"; dataType := LongType |};
                 {| field_name := "created_at"; dataType := TimestampType |} ];
     partitions := [ [ [IntV 1; TimestampV 1583020799000000] ] ];
     caseSensitive := false |}.

(** Listings whose event time is kept as a number of seconds. *)
Definition listings_by_epoch : DataFrame :=
  {| schema := [ {| field_name := "id"; dataType := LongType |};
                 {| field_name := "timestamp"; dataType := LongType |} ];
     partitions := [ [ [IntV 1; IntV 1583020799] ] ];
     caseSensitive := false |}.

(** A feature set named like an absolute path. *)
Definition absolute_clicks : FeatureSet :=
  {| name := "/tmp/user_clicks"; entity := "user" |}.



Example civil_from_days_leap_day :
  civil_from_days (1583020799000000 / 86400000000) = (2020, 2, 29)
  /\ civil_from_days (1583020800000000 / 86400000000) = (2020, 3, 1)
  /\ civil_from_days 0 = (1970, 1, 1) /\ civil_from_days (-1) = (1969, 12, 31).
Proof. repeat split. Qed.

Example literals_are_nearest :
  Py.float_div Py.float_one (S754_finite false 1000 0) = one_per_mille
  /\ Py.Float (Py.float_div Py.float_one (S754_finite false 100 0))
     = DEFAULT_VALIDATION_THRESHOLD.
Proof. split; reflexivity. Qed.

(** The docstring's example: with the default threshold, 100000 rows in the
    dataframe and 99500 read back pass. *)
Example default_threshold_docstring :
  _assert_validation_count (new_writer DEFAULT_VALIDATION_THRESHOLD false)
    "feature_store.house_listings" 99500 100000 = inr tt
  /\ _assert_validation_count (new_writer DEFAULT_VALIDATION_THRESHOLD false)
       "feature_store.house_listings" 100000 99500 = inr tt
  /\ _assert_validation_count (new_writer DEFAULT_VALIDATION_THRESHOLD false)
       "feature_store.house_listings" 100000 98000
     = inl (Py.AssertionError
              (validation_message "feature_store.house_listings" 100000 98000)).
Proof. repeat split. Qed.



Lemma listings_well_formed : well_formed listings.
Proof. repeat constructor. Qed.

(** C2 at work: a session in static mode is refused, and a debug writer
    does not look at the mode. *)
Lemma load_overwrite_mode_guard_witness :
  result (load_in_utc house_listings listings (session "STATIC" listings))
    (new_writer (Py.Int 0) false)
  = inl (Py.RuntimeError (overwrite_mode_message "static"))
  /\ forall key : string,
       ~ In (ConfGet key)
           (calls_of (load_in_utc house_listings listings (session "STATIC" listings))
              (new_writer (Py.Int 0) true)).
Proof.
  destruct (load_overwrite_mode_guard utc_year utc_month utc_dayofmonth sum_hash
              "timestamp" "year" "month" "day" house_listings listings
              (session "STATIC" listings) (new_writer (Py.Int 0) false)) as [Hoff _].
  destruct (load_overwrite_mode_guard utc_year utc_month utc_dayofmonth sum_hash
              "timestamp" "year" "month" "day" house_listings listings
              (session "STATIC" listings) (new_writer (Py.Int 0) true)) as [_ Hon].
  split.
  - destruct (Hoff eq_refl) as (_ & Hraise & _).
    + vm_compute. discriminate.
    + edestruct Hraise as [Hres _]; [reflexivity | exact Hres].
  - exact (proj1 (Hon eq_refl)).
Defined.

(** The error of the guard under Spark's default mode, as Python prints it. *)
Definition static_mode_message : string :=
  "m=load_incremental, spark.sql.sources.partitionOverwriteMode=static, "
    +:+ "msg=partitionOverwriteMode have to be configured to 'dynamic'".

(** C9, the counterexample.  Spark reports its default mode as ["STATIC"];
    the error then speaks of ["static"], and ["STATIC"] is nowhere in it. *)
Lemma overwrite_mode_message_counterexample :
  conf (session "STATIC" listings) "spark.sql.sources.partitionOverwriteMode" = "STATIC"
  /\ result (load_in_utc house_listings listings (session "STATIC" listings))
       (new_writer (Py.Int 0) false)
     = inl (Py.RuntimeError static_mode_message)
  /\ ~ Py.includes static_mode_message "STATIC".
Proof.
  split; [reflexivity|]. split; [reflexivity|].
  intros H. apply contains_spec in H. vm_compute in H. discriminate.
Qed.

(** C9 at work: the error names the mode in lower case. *)
Lemma overwrite_mode_error_message_witness :
  Py.includes static_mode_message "static".
Proof.
  destruct (overwrite_mode_error_message utc_year utc_month utc_dayofmonth sum_hash
              "timestamp" "year" "month" "day" house_listings listings
              (session "STATIC" listings) (new_writer (Py.Int 0) false))
    as (_ & Hmsg & _).
  - reflexivity.
  - vm_compute. discriminate.
  - apply (Hmsg _ eq_refl).
Defined.

(** C3, the counterexample.  A feature set with a feature called [year]:
    the plan has that column overwritten with the year of the event time,
    and two more columns, not three. *)
Lemma load_year_column_counterexample :
  positions listings_by_year "timestamp" = [0%nat]
  /\ exists plan : WritePlan,
       result (load_in_utc house_listings listings_by_year (session "dynamic" listings))
         (new_writer (Py.Int 0) false) = inr plan
       /\ schema (load_df plan)
          = [ {| field_name := "timestamp"; dataType := TimestampType |};
              {| field_name := "year"; dataType := IntegerType |};
              {| field_name := "month"; dataType := IntegerType |};
              {| field_name := "day"; dataType := IntegerType |} ]
       /\ rows (load_df plan)
          = [ [TimestampV 1583020799000000; IntV 2020; IntV 2; IntV 29] ]
       /\ ~ adds_partition_columns utc_year utc_month utc_dayofmonth
              "year" "month" "day" 0 listings_by_year (load_df plan).
Proof.
  split; [reflexivity|]. eexists. split; [reflexivity|].
  split; [reflexivity|]. split; [reflexivity|].
  intros [Hschema _]. vm_compute in Hschema. discriminate.
Qed.

Lemma listings_by_epoch_well_formed : well_formed listings_by_epoch.
Proof. repeat constructor. Qed.

(** C3 at work: the three listings come back with their dates, and
    listings with a number for an event time are refused. *)
Lemma load_adds_partition_columns_witness :
  (exists plan : WritePlan,
     result (load_in_utc house_listings listings (session "Dynamic" listings))
       (new_writer (Py.Int 0) false) = inr plan
     /\ adds_partition_columns utc_year utc_month utc_dayofmonth
          "year" "month" "day" 1 listings (load_df plan))
  /\ exists msg : string,
       result (load_in_utc house_listings listings_by_epoch (session "Dynamic" listings))
         (new_writer (Py.Int 0) false) = inl (Py.AnalysisException msg).
Proof.
  split.
  - destruct (load_adds_partition_columns utc_year utc_month utc_dayofmonth sum_hash
                "timestamp" "year" "month" "day" house_listings listings
                (session "Dynamic" listings) (new_writer (Py.Int 0) false) 1)
      as (Hadds & Hreturns & _);
      try reflexivity; try exact listings_well_formed.
    destruct Hreturns as [plan Hplan];
      [reflexivity | reflexivity | right; reflexivity |].
    exists plan. split; [exact Hplan | exact (Hadds plan Hplan)].
  - destruct (load_adds_partition_columns utc_year utc_month utc_dayofmonth sum_hash
                "timestamp" "year" "month" "day" house_listings listings_by_epoch
                (session "Dynamic" listings) (new_writer (Py.Int 0) false) 1)
      as (_ & _ & Hraises);
      try reflexivity; try exact listings_by_epoch_well_formed.
    exact (Hraises eq_refl).
Defined.

(** C4 at work. *)
Lemma load_partition_by_witness :
  exists plan : WritePlan,
    result (load_in_utc house_listings listings (session "dynamic" listings))
      (new_writer (Py.Int 0) false) = inr plan
    /\ partition_by plan = ["year"; "month"; "day"].
Proof.
  eexists. split; [reflexivity|].
  apply (load_partition_by utc_year utc_month utc_dayofmonth sum_hash
           "timestamp" "year" "month" "day" house_listings listings
           (session "dynamic" listings) (new_writer (Py.Int 0) false)).
  reflexivity.
Defined.

(** C5 at work: the key of the house listings and the path it resolves to. *)
Lemma load_storage_key_witness :
  In (GetOptions "historical/house/house_listings")
     (calls_of (load_in_utc house_listings listings (session "dynamic" listings))
        (new_writer (Py.Int 0) false))
  /\ exists plan : WritePlan,
       result (load_in_utc house_listings listings (session "dynamic" listings))
         (new_writer (Py.Int 0) false) = inr plan
       /\ options plan
          = {[ "path" := Some "s3a://bucket/historical/house/house_listings" ]}.
Proof.
  destruct (load_storage_key utc_year utc_month utc_dayofmonth sum_hash
              "timestamp" "year" "month" "day" house_listings listings
              (session "dynamic" listings) (new_writer (Py.Int 0) false))
    as (_ & Hplan & _).
  edestruct Hplan as [Hcall Hoptions]; [reflexivity|].
  split; [exact Hcall|]. eexists. split; [reflexivity | exact Hoptions].
Defined.

(** C6 at work: what [validate] reads in debug mode and in normal mode. *)
Lemma validate_reads_from_witness :
  calls_of (validate house_listings listings (session "dynamic" listings))
    (new_writer (Py.Int 0) true)
  = [ReadTable "historical_feature_store__house_listings"]
  /\ calls_of (validate house_listings listings (session "dynamic" listings))
       (new_writer (Py.Int 0) false)
     = [GetOptions "feature_store.house_listings";
        Read "parquet" (get_options bucket_config "feature_store.house_listings")]
  /\ forall msg : string,
       result (validate house_listings listings (session "dynamic" listings_by_year))
         (new_writer (Py.Int 0) true) = inl (Py.AssertionError msg) ->
       Py.includes msg "historical_feature_store__house_listings".
Proof.
  destruct (validate_reads_from house_listings listings (session "dynamic" listings)
              (new_writer (Py.Int 0) true)) as [Hdebug _].
  destruct (validate_reads_from house_listings listings (session "dynamic" listings)
              (new_writer (Py.Int 0) false)) as [_ Hnormal].
  destruct (validate_reads_from house_listings listings
              (session "dynamic" listings_by_year) (new_writer (Py.Int 0) true))
    as [Hfail _].
  split; [exact (proj1 (Hdebug eq_refl))|].
  split; [exact (proj1 (Hnormal eq_refl))|].
  intros msg Hmsg.
  destruct (Hfail eq_refl) as [_ Hread].
  destruct (Hread listings_by_year eq_refl) as [_ Hcarries].
  exact (proj2 (Hcarries msg Hmsg)).
Defined.

Example validate_debug_mismatch :
  result (validate house_listings listings (session "dynamic" listings_by_year))
    (new_writer (Py.Int 0) true)
  = inl (Py.AssertionError
           (validation_message "historical_feature_store__house_listings" 1 3)).
Proof. reflexivity. Qed.

(** C7, the counterexample.  The constructor takes a threshold of [-1], or
    of [2], as it takes any other. *)
Lemma validation_threshold_counterexample :
  validation_threshold
    (__init__ 200 environment bucket_config None None None (Py.Int (-1)) false None)
  = Py.Int (-1)
  /\ Py.le (Py.Int 0)
       (validation_threshold
          (__init__ 200 environment bucket_config None None None (Py.Int (-1)) false None))
     = false
  /\ in_unit_interval
       (validation_threshold
          (__init__ 200 environment bucket_config None None None
             (Py.Float (S754_finite false 1 1)) false None))
     = false.
Proof. repeat split. Qed.

(** C7 at work: the default threshold, before and after a [load]. *)
Lemma validation_threshold_fixed_witness :
  validation_threshold
    (__init__ 200 environment bucket_config None None None
       DEFAULT_VALIDATION_THRESHOLD false None)
  = DEFAULT_VALIDATION_THRESHOLD
  /\ in_unit_interval
       (validation_threshold
          (writer_after
             (load_in_utc house_listings listings (session "dynamic" listings))
             (__init__ 200 environment bucket_config None None None
                DEFAULT_VALIDATION_THRESHOLD false None)))
     = true.
Proof.
  destruct (validation_threshold_fixed utc_year utc_month utc_dayofmonth sum_hash
              "timestamp" "year" "month" "day" 200 environment bucket_config
              None None None DEFAULT_VALIDATION_THRESHOLD false None)
    as (Hinit & _ & Hkept).
  split; [exact Hinit|].
  destruct (Hkept house_listings listings (session "dynamic" listings)) as [Hload _].
  unfold load_in_utc. rewrite Hload. reflexivity.
Defined.

(** C8, the counterexample.  A writer that wrote the house listings and is
    then given the user clicks has its schema-check hook still on the table
    of the house listings, and registered twice; on a fresh writer the hook
    is on the table of the user clicks, once. *)
Lemma load_reuse_counterexample :
  (check_schema
     (writer_after (load_in_utc user_clicks listings (session "dynamic" listings))
        (writer_after (load_in_utc house_listings listings (session "dynamic" listings))
           (new_writer (Py.Int 0) false)))
   ≫= hook_table)
  = Some (Some "feature_store", "house_listings")
  /\ (check_schema
        (writer_after (load_in_utc user_clicks listings (session "dynamic" listings))
           (new_writer (Py.Int 0) false))
      ≫= hook_table)
     = Some (Some "feature_store", "user_clicks")
  /\ map hook_table
       (pre_hooks
          (writer_after (load_in_utc user_clicks listings (session "dynamic" listings))
             (writer_after
                (load_in_utc house_listings listings (session "dynamic" listings))
                (new_writer (Py.Int 0) false))))
     = [Some (Some "feature_store", "house_listings");
        Some (Some "feature_store", "house_listings")]
  /\ map hook_table
       (pre_hooks
          (writer_after (load_in_utc user_clicks listings (session "dynamic" listings))
             (new_writer (Py.Int 0) false)))
     = [Some (Some "feature_store", "user_clicks")].
Proof. repeat split. Qed.

(** C8 at work: a writer whose first [load] was refused by the guard returns
    for the user clicks what a fresh writer returns. *)
Lemma load_on_reused_writer_witness :
  result (load_in_utc user_clicks listings (session "dynamic" listings))
    (writer_after (load_in_utc house_listings listings (session "STATIC" listings))
       (new_writer (Py.Int 0) false))
  = result (load_in_utc user_clicks listings (session "dynamic" listings))
      (new_writer (Py.Int 0) false).
Proof.
  exact (proj1 (proj1 (load_on_reused_writer utc_year utc_month utc_dayofmonth sum_hash
                         "timestamp" "year" "month" "day" house_listings user_clicks
                         listings listings (session "STATIC" listings)
                         (session "dynamic" listings) (new_writer (Py.Int 0) false)))).
Defined.

(** C10 at work. *)
Lemma init_falsy_arguments_witness :
  num_partitions
    (__init__ 200 environment bucket_config None None (Some 0) (Py.Int 0) false None)
  = 200
  /\ validation_threshold
       (__init__ 200 environment bucket_config None None (Some 0)
          (Py.Float (S754_zero false)) false None)
     = Py.Float (S754_zero false).
Proof.
  destruct (init_falsy_arguments 200 environment bucket_config None None
              (Py.Int 0) false None) as (_ & Hzero & _ & _ & Hfloat & _).
  split; [exact Hzero | exact (Hfloat (Some 0) false)].
Defined.

(** ** The general properties at work *)

Lemma listings_by_year_well_formed : well_formed listings_by_year.
Proof. repeat constructor. Qed.

(** X1 at work: the feature called [year] is overwritten with the year of
    the event time, and the three names each find their column. *)
Lemma load_partition_columns_consistent_witness :
  exists plan : WritePlan,
    result (load_in_utc house_listings listings_by_year (session "dynamic" listings))
      (new_writer (Py.Int 0) false) = inr plan
    /\ exists i jy jm jd : nat,
         positions (load_df plan) "timestamp" = [i]
         /\ positions (load_df plan) "year" = [jy]
         /\ positions (load_df plan) "month" = [jm]
         /\ positions (load_df plan) "day" = [jd]
         /\ schema (load_df plan) !! jy
            = Some {| field_name := "year"; dataType := IntegerType |}
         /\ schema (load_df plan) !! jm
            = Some {| field_name := "month"; dataType := IntegerType |}
         /\ schema (load_df plan) !! jd
            = Some {| field_name := "day"; dataType := IntegerType |}
         /\ Forall (fun r : Row =>
                      nth jy r Null = utc_year (nth i r Null)
                      /\ nth jm r Null = utc_month (nth i r Null)
                      /\ nth jd r Null = utc_dayofmonth (nth i r Null))
                   (rows (load_df plan)).
Proof.
  eexists. split; [reflexivity|].
  apply (load_partition_columns_consistent utc_year utc_month utc_dayofmonth sum_hash
           "timestamp" "year" "month" "day" house_listings listings_by_year
           (session "dynamic" listings) (new_writer (Py.Int 0) false)).
  - reflexivity.
  - exact listings_by_year_well_formed.
  - reflexivity.
Defined.

(** X2 at work: the identifiers and the rents of the listings are where
    they were. *)
Lemma load_keeps_other_columns_witness :
  exists plan : WritePlan,
    result (load_in_utc house_listings listings (session "dynamic" listings))
      (new_writer (Py.Int 0) false) = inr plan
    /\ exists (jy jm jd : nat) (g : Row -> Row),
         positions (load_df plan) "year" = [jy]
         /\ positions (load_df plan) "month" = [jm]
         /\ positions (load_df plan) "day" = [jd]
         /\ rows (load_df plan) ≡ₚ map g (rows listings)
         /\ forall p : nat,
              (p < length (schema listings))%nat -> p <> jy -> p <> jm -> p <> jd ->
              schema (load_df plan) !! p = schema listings !! p
              /\ forall r : Row, In r (rows listings) -> nth p (g r) Null = nth p r Null.
Proof.
  eexists. split; [reflexivity|].
  apply (load_keeps_other_columns utc_year utc_month utc_dayofmonth sum_hash
           "timestamp" "year" "month" "day" house_listings listings
           (session "dynamic" listings) (new_writer (Py.Int 0) false)).
  - reflexivity.
  - exact listings_well_formed.
  - reflexivity.
Defined.

(** X3 at work: three listings in, three rows out. *)
Lemma validate_after_load_witness :
  exists plan : WritePlan,
    result (load_in_utc house_listings listings (session "dynamic" listings))
      (new_writer (Py.Int 0) false) = inr plan
    /\ count (load_df plan) = 3
    /\ run (validate house_listings (load_df plan) (session "dynamic" listings))
         (new_writer (Py.Int 0) false)
       = run (validate house_listings listings (session "dynamic" listings))
           (new_writer (Py.Int 0) false).
Proof.
  eexists. split; [reflexivity|].
  destruct (validate_after_load utc_year utc_month utc_dayofmonth sum_hash
              "timestamp" "year" "month" "day" house_listings listings
              (session "dynamic" listings) (new_writer (Py.Int 0) false) _ eq_refl)
    as [Hcount Hsame].
  split; [exact Hcount | apply Hsame].
Defined.

(** X4 at work: the listings, a positive partition count and a session in
    dynamic mode; and the listings whose event time is a number. *)
Lemma load_returns_iff_witness :
  (exists plan : WritePlan,
     result (load_in_utc house_listings listings (session "DYNAMIC" listings))
       (new_writer (Py.Int 0) false) = inr plan)
  /\ ~ (exists plan : WritePlan,
          result (load_in_utc house_listings listings_by_epoch
                    (session "DYNAMIC" listings))
            (new_writer (Py.Int 0) false) = inr plan).
Proof.
  split.
  - apply (load_returns_iff utc_year utc_month utc_dayofmonth sum_hash
             "timestamp" "year" "month" "day" house_listings listings
             (session "DYNAMIC" listings) (new_writer (Py.Int 0) false));
      [reflexivity|].
    split; [exists 1%nat; split; reflexivity|].
    split; [vm_compute; lia|]. split; [vm_compute; lia|]. split; [vm_compute; lia|].
    split; [reflexivity | right; reflexivity].
  - intros H.
    apply (load_returns_iff utc_year utc_month utc_dayofmonth sum_hash
             "timestamp" "year" "month" "day" house_listings listings_by_epoch
             (session "DYNAMIC" listings) (new_writer (Py.Int 0) false)) in H;
      [|reflexivity].
    destruct H as ((i & Hi & Hdate) & _).
    vm_compute in Hi. injection Hi as <-. vm_compute in Hdate. discriminate.
Defined.

(** X5 at work: the prepared listings, prepared again. *)
Lemma load_again_witness :
  exists plan again : WritePlan,
    result (load_in_utc house_listings listings (session "dynamic" listings))
      (new_writer (Py.Int 0) false) = inr plan
    /\ result (load_in_utc house_listings (load_df plan) (session "dynamic" listings))
         (writer_after (load_in_utc house_listings listings (session "dynamic" listings))
            (new_writer (Py.Int 0) false))
       = inr again
    /\ schema (load_df again) = schema (load_df plan)
    /\ rows (load_df again) ≡ₚ rows (load_df plan)
    /\ options again = options plan
    /\ table_name again = table_name plan.
Proof.
  eexists.
  destruct (load_again utc_year utc_month utc_dayofmonth sum_hash
              "timestamp" "year" "month" "day" house_listings listings
              (session "dynamic" listings) (new_writer (Py.Int 0) false) _
              eq_refl listings_well_formed eq_refl) as (again & Hagain).
  exists again. split; [reflexivity | exact Hagain].
Defined.

(** X6 at work: no column called [timestamp]. *)
Lemma load_without_event_time_witness :
  (exists msg : string,
     result (load_in_utc house_listings listings_untimed (session "STATIC" listings))
       (new_writer (Py.Int 0) false)
     = inl (Py.AnalysisException msg))
  /\ (forall c : Call,
        In c (calls_of
                (load_in_utc house_listings listings_untimed (session "STATIC" listings))
                (new_writer (Py.Int 0) false)) ->
        c = NewSchemaHook "house_listings" (Some "feature_store"))
  /\ exists h : Hook,
       check_schema
         (writer_after
            (load_in_utc house_listings listings_untimed (session "STATIC" listings))
            (new_writer (Py.Int 0) false)) = Some h
       /\ pre_hooks
            (writer_after
               (load_in_utc house_listings listings_untimed (session "STATIC" listings))
               (new_writer (Py.Int 0) false)) = [h].
Proof.
  apply (load_without_event_time utc_year utc_month utc_dayofmonth sum_hash
           "timestamp" "year" "month" "day" house_listings listings_untimed
           (session "STATIC" listings) (new_writer (Py.Int 0) false)).
  intros i. vm_compute. discriminate.
Defined.

(** X7 at work. *)
Lemma load_storage_key_shape_witness :
  "historical/house/house_listings"
  = "historical/" +:+ entity house_listings +:+ "/" +:+ name house_listings.
Proof.
  apply (load_storage_key_shape utc_year utc_month utc_dayofmonth sum_hash
           "timestamp" "year" "month" "day" house_listings listings
           (session "dynamic" listings) (new_writer (Py.Int 0) false)).
  - discriminate.
  - reflexivity.
  - reflexivity.
  - vm_compute. right. right. left. reflexivity.
Defined.

(** X8 at work: a debug writer and a normal one, asked for the same key. *)
Lemma load_storage_key_injective_witness :
  entity house_listings = entity house_listings
  /\ name house_listings = name house_listings.
Proof.
  apply (load_storage_key_injective utc_year utc_month utc_dayofmonth sum_hash
           "timestamp" "year" "month" "day" house_listings house_listings
           listings listings_by_year
           (session "dynamic" listings) (session "STATIC" listings)
           (new_writer (Py.Int 0) false) (new_writer (Py.Int 0) true)
           "historical/house/house_listings").
  - discriminate.
  - reflexivity.
  - reflexivity.
  - discriminate.
  - reflexivity.
  - reflexivity.
  - vm_compute. right. right. left. reflexivity.
  - vm_compute. right. left. reflexivity.
Defined.

(** X9 at work. *)
Lemma load_storage_key_absolute_name_witness :
  In (GetOptions "/tmp/user_clicks")
     (calls_of (load_in_utc absolute_clicks listings (session "dynamic" listings))
        (new_writer (Py.Int 0) true))
  /\ "/tmp/user_clicks" = name absolute_clicks.
Proof.
  assert (Hcall : In (GetOptions "/tmp/user_clicks")
                    (calls_of
                       (load_in_utc absolute_clicks listings (session "dynamic" listings))
                       (new_writer (Py.Int 0) true)))
    by (vm_compute; right; left; reflexivity).
  split; [exact Hcall|].
  exact (load_storage_key_absolute_name utc_year utc_month utc_dayofmonth sum_hash
           "timestamp" "year" "month" "day" absolute_clicks listings
           (session "dynamic" listings) (new_writer (Py.Int 0) true)
           "/tmp/user_clicks" eq_refl Hcall).
Defined.

(** X11 at work: an empty database name, and the database of the
    environment. *)
Lemma validate_without_database_witness :
  database
    (__init__ 200 environment bucket_config None (Some "") None (Py.Int 0) false None)
  = Some "feature_store"
  /\ calls_of (validate house_listings listings (session "dynamic" listings))
       (__init__ 200 environment bucket_config None (Some "") None (Py.Int 0) false None)
     = [GetOptions "feature_store.house_listings";
        Read "parquet" (get_options bucket_config "feature_store.house_listings")].
Proof.
  destruct (validate_without_database utc_year utc_month utc_dayofmonth sum_hash
              "timestamp" "year" "month" "day" 200 environment bucket_config
              None (Some "") None (Py.Int 0) None house_listings listings
              (session "dynamic" listings)) as (Hdb & Hcalls & _); [now right|].
  split; [exact Hdb | exact Hcalls].
Defined.

(** X12 at work: the house listings are read back from the table of the
    plan. *)
Lemma validate_reads_the_plan_witness :
  calls_of (validate house_listings listings (session "dynamic" listings))
    (writer_after (load_in_utc house_listings listings (session "dynamic" listings))
       (new_writer (Py.Int 0) false))
  = [GetOptions "feature_store.house_listings";
     Read "parquet" (get_options bucket_config "feature_store.house_listings")].
Proof.
  exact (validate_reads_the_plan utc_year utc_month utc_dayofmonth sum_hash
           "timestamp" "year" "month" "day" house_listings listings listings
           (session "dynamic" listings) (session "dynamic" listings)
           (new_writer (Py.Int 0) false) _ eq_refl).
Defined.

(** X13 at work: an empty table, against one row and against none. *)
Lemma assert_validation_count_nothing_read_witness :
  _assert_validation_count (new_writer DEFAULT_VALIDATION_THRESHOLD false)
    "feature_store.house_listings" 0 1
  = inl (Py.AssertionError (validation_message "feature_store.house_listings" 0 1))
  /\ _assert_validation_count (new_writer (Py.Int 1) false)
       "feature_store.house_listings" 0 0 = inr tt.
Proof.
  split.
  - apply (assert_validation_count_nothing_read
             (new_writer DEFAULT_VALIDATION_THRESHOLD false)
             "feature_store.house_listings" 1).
    discriminate.
  - exact (proj2 (assert_validation_count_nothing_read (new_writer (Py.Int 1) false)
                    "feature_store.house_listings" 0) 1 eq_refl).
Defined.

(** X14 at work: a threshold of [1], and a threshold of [-1]. *)
Lemma assert_validation_count_int_threshold_witness :
  _assert_validation_count (new_writer (Py.Int 1) false)
    "feature_store.house_listings" 100 100 = inr tt
  /\ _assert_validation_count (new_writer (Py.Int (-1)) false)
       "feature_store.house_listings" 100 100
     = inl (Py.AssertionError (validation_message "feature_store.house_listings" 100 100)).
Proof.
  split.
  - apply (assert_validation_count_int_threshold (new_writer (Py.Int 1) false)
             "feature_store.house_listings" 1 100 eq_refl); lia.
  - apply (assert_validation_count_int_threshold (new_writer (Py.Int (-1)) false)
             "feature_store.house_listings" (-1) 100 eq_refl); lia.
Defined.

(** X15 at work. *)
Lemma assert_validation_count_not_finite_witness :
  _assert_validation_count (new_writer (Py.Float S754_nan) false)
    "feature_store.house_listings" 100 100 <> inr tt
  /\ _assert_validation_count (new_writer (Py.Float (S754_infinity false)) false)
       "feature_store.house_listings" 100 1000000 = inr tt.
Proof.
  split.
  - apply (assert_validation_count_not_finite (new_writer (Py.Float S754_nan) false)).
    reflexivity.
  - apply (assert_validation_count_not_finite
             (new_writer (Py.Float (S754_infinity false)) false));
      [reflexivity | lia].
Defined.
